(** * grafana-datasource-kit: the paging and streaming engine of
      [src/grafana_service.ts]

    A shallow embedding of [grafana_service.ts].  JavaScript objects used as
    string-keyed maps (HTTP headers, the axios request) are [gmap]s, arrays
    are lists, array lengths and numeric arguments are integers in [Z],
    and a thrown value is the left injection of a sum.  Effects are threaded
    explicitly: the transport ([axios]) acts on an abstract back-end state and
    every request that reaches it is recorded, as are the [console] events.

    The collaborators the file imports and does not define are taken as they
    are used: [getQuery] and [getResults] are fields of the metric, while
    [axios] and the platform's [URL] class are variables of the section. *)

From stdpp Require Import base option list strings pretty gmap.
From Stdlib Require Import ZArith Lia Ascii.

Local Open Scope Z_scope.
Local Open Scope string_scope.

(** ** A state-and-exception monad

    [M St A] is a computation over a mutable state [St] that either returns an
    [A] or throws an [E].  [await] is sequencing: the file awaits every
    promise it creates immediately. *)

Section Monad.
Context {E St : Type}.

Definition M (A : Type) : Type := St → (E + A) * St.

Definition ret {A} (a : A) : M A := λ s, (inr a, s).
Definition throw {A} (e : E) : M A := λ s, (inl e, s).
Definition bind {A B} (m : M A) (k : A → M B) : M B :=
  λ s, match m s with
       | (inr a, s') => k a s'
       | (inl e, s') => (inl e, s')
       end.
Definition get : M St := λ s, (inr s, s).
Definition modify (f : St → St) : M unit := λ s, (inr tt, f s).

(** [if (c) { throw e }] as a statement. *)
Definition throw_if (c : bool) (e : E) : M unit :=
  if c then throw e else ret tt.
(** [if (c) { m }] as a statement. *)
Definition when (c : bool) (m : M unit) : M unit :=
  if c then m else ret tt.
(** [for (const x of xs) { body x }] *)
Fixpoint for_of {A} (xs : list A) (body : A → M unit) : M unit :=
  match xs with
  | [] => ret tt
  | x :: xs' => bind (body x) (λ _, for_of xs' body)
  end.
(** [for (let i = 0; i < n; i++) { body }] with a body that ignores [i]. *)
Fixpoint for_count (n : nat) (body : M unit) : M unit :=
  match n with
  | O => ret tt
  | S n' => bind body (λ _, for_count n' body)
  end.
End Monad.

Arguments M : clear implicits.

Notation "'let*' x ':=' m 'in' k" := (bind m (λ x, k))
  (at level 10, x name, m at level 100, k at level 200, only parsing).
Notation "m ;;; k" := (bind m (λ _, k))
  (at level 100, right associativity, only parsing).

(** Run a computation on one component of a larger state. *)
Definition zoom {E S T A} (proj : T → S) (upd : S → T → T) (m : M E S A) : M E T A :=
  λ t, let '(r, s') := m (proj t) in (r, upd s' t).

(** ** Errors (lines 9-21) *)

(** [class DataKitError extends Error]: a message and two optional context
    properties. *)
Record DataKitError := {
  message : string;
  datasourceType : option string;
  datasourceUrl : option string
}.

(** What the file can throw: the three subclasses of [DataKitError], a plain
    [new Error(message)], and the [TypeError]s of the platform (an invalid
    URL given to [new URL], a property read on [undefined]). *)
Inductive Exception :=
| BadRange (e : DataKitError)
| GrafanaUnavailable (e : DataKitError)
| DatasourceUnavailable (e : DataKitError)
| Error (msg : string)
| TypeError_InvalidURL (input : string)
| TypeError_UndefinedProperty (property : string).

Definition CHUNK_SIZE : Z := 50000.

(** ** The regular expression of [getGrafanaUrl] (line 199)

    [^ \/* ( [^\/]* ) \/d\/]: any number of slashes, a captured run of characters
    other than a slash, then the literal [/d/].  Both stars are greedy and
    backtrack, the longest choice first, as [String.prototype.match] does. *)

Definition is_slash (c : ascii) : bool := bool_decide (c = "/"%char).

Fixpoint starts_with (p s : string) : bool :=
  match p, s with
  | EmptyString, _ => true
  | String a p', String b s' => bool_decide (a = b) && starts_with p' s'
  | String _ _, EmptyString => false
  end.

(** [( [^\/]* ) \/d\/] at the head of [s]: the capture, longest first. *)
Fixpoint match_group (s : string) : option string :=
  match s with
  | EmptyString => None
  | String c s' =>
      if is_slash c then
        if starts_with "/d/" s then Some "" else None
      else
        match match_group s' with
        | Some g => Some (String c g)
        | None => if starts_with "/d/" s then Some "" else None
        end
  end.

(** [\/* ( [^\/]* ) \/d\/] at the head of [s]: one more slash is tried before
    the group is. *)
Fixpoint match_panelUrl (s : string) : option string :=
  match s with
  | EmptyString => match_group s
  | String c s' =>
      if is_slash c then
        match match_panelUrl s' with
        | Some g => Some g
        | None => match_group s
        end
      else match_group s
  end.

(** ** Data (lines 25-37) and the collaborators' interfaces *)

Section Kit.
(** [Payload]: the values of a request schema and of an error response that
    the file only passes along.  [Response]: what [axios] resolves to.
    [Row]: one element of a page's [values].  [World]: the state of the
    back end behind the transport. *)
Context {Payload Response Row World : Type}.

Record TimeSeriesPoint := {
  point_columns : list string;
  point_values : list Row
}.

Record TimeSeriesChunk := {
  chunk_columns : list string;
  chunk_values : list Row
}.

(** The object literal [{ values, columns }] that [getResults] returns and
    [queryByMetric] accumulates. *)
Record Table := {
  values : list Row;
  columns : list string
}.

(** A property of the axios request object. *)
Inductive Field :=
| FHeaders (h : gmap string string)
| FString (s : string)
| FOther (p : Payload).

(** [MetricQuery]: [headers] may be [undefined] (line 149); a [method] or
    a [schema] property that is [undefined] is an absent one. *)
Record MetricQuery := {
  url : string;
  method : option string;
  schema : gmap string Field;
  headers : option (gmap string string)
}.

Record Datasource := { type : string }.

Record MetricQueryBuilder := {
  getQuery : Z → Z → Z → Z → MetricQuery;
  getResults : Response → Table
}.

Record Metric := {
  datasource : Datasource;
  metricQuery : MetricQueryBuilder
}.

(** The failure [axios] rejects with: [e.message], [e.errno], [e.response]. *)
Record ErrorResponse := {
  status : Z;
  data : Payload;
  response_headers : gmap string string
}.

Record AxiosError := {
  error_message : string;
  errno : option string;
  response : option ErrorResponse
}.

(** [new URL(s)]: the two properties the file reads. *)
Record ParsedURL := {
  origin : string;
  pathname : string
}.

Inductive ConsoleEvent :=
| console_warn (text : string)
(** line 168: the message and the path that is printed after it *)
| console_error_request (msg : string) (path : string)
(** lines 173-177: status, data and headers of the response *)
| console_error_response (r : ErrorResponse).

(** The observable environment: the back end, the requests handed to the
    transport (oldest first) and the console. *)
Record Env := {
  world : World;
  requests : list (gmap string Field);
  console : list ConsoleEvent
}.

(** [axios] executes a request against the back end; [URL] is the
    platform's parser, [None] where [new URL] throws. *)
Variable axios : gmap string Field → World → (AxiosError + Response) * World.
Variable URL : string → option ParsedURL.

Definition new_URL {S} (s : string) : M Exception S ParsedURL :=
  match URL s with
  | Some u => ret u
  | None => throw (TypeError_InvalidURL s)
  end.

Definition console_log (ev : ConsoleEvent) : M Exception Env unit :=
  modify (λ s, {| world := world s; requests := requests s;
                  console := console s ++ [ev] |}).

(** [await axios(axiosQuery)] with the rejection as a value, for the
    [try]/[catch] of line 162. *)
Definition try_axios (axiosQuery : gmap string Field)
  : M Exception Env (AxiosError + Response) :=
  λ s, let '(r, w) := axios axiosQuery (world s) in
       (inr r, {| world := w; requests := requests s ++ [axiosQuery];
                  console := console s |}).

(** lodash on flat objects: [_.merge(object, source)] lets a property of
    [source] replace the one of [object]; [_.defaults(object, source)]
    only fills the properties [object] lacks. *)
Definition lodash_merge (object source : gmap string string) : gmap string string :=
  source ∪ object.
Definition lodash_defaults (object source : gmap string Field) : gmap string Field :=
  object ∪ source.

(** ** [getGrafanaUrl] (lines 196-211) *)
Definition getGrafanaUrl {S} (url : string) : M Exception S string :=
  let* parsedUrl := new_URL url in
  let path := pathname parsedUrl in
  let panelUrl := match_panelUrl path in
  match panelUrl with
  | None => ret url
  | Some grafanaSubPath =>
      let origin := origin parsedUrl in
      if bool_decide (0 < Z.of_nat (String.length grafanaSubPath)) then
        ret (origin +:+ "/" +:+ grafanaSubPath)
      else ret origin
  end.

(** ** [queryGrafana] (lines 146-194) *)
Definition request_headers (query : MetricQuery) (apiKey : string) : gmap string string :=
  let headers0 : gmap string string := {[ "Authorization" := "Bearer " +:+ apiKey ]} in
  match headers query with
  | Some h => lodash_merge headers0 h
  | None => headers0
  end.

Definition build_axiosQuery (query : MetricQuery) (apiKey : string) : gmap string Field :=
  let headers := request_headers query apiKey in
  let axiosQuery : gmap string Field :=
    <["headers" := FHeaders headers]>
      (<["url" := FString (url query)]>
         (match method query with
          | Some m => {[ "method" := FString m ]}
          | None => ∅
          end)) in
  lodash_defaults axiosQuery (schema query).

(** The [catch] block, lines 164-191. *)
Definition classify {A} (e : AxiosError) (query : MetricQuery) (datasource : Datasource)
  : M Exception Env A :=
  let msg := "Data kit: fail while request data: " +:+ error_message e in
  let* parsedUrl := new_URL (url query) in
  console_log (console_error_request msg (pathname parsedUrl));;;
  throw_if (bool_decide (errno e = Some "ECONNREFUSED"))
    (GrafanaUnavailable {| message := error_message e;
                           datasourceType := None; datasourceUrl := None |});;;
  match response e with
  | Some r =>
      console_log (console_error_response r);;;
      throw_if (bool_decide (status r = 401))
        (Error ("Unauthorized. Check the API_KEY. " +:+ error_message e));;;
      throw_if (bool_decide (status r = 502))
        (DatasourceUnavailable
           {| message := "datasource " +:+ pathname parsedUrl
                         +:+ " unavailable, message: " +:+ error_message e;
              datasourceType := Some (type datasource);
              datasourceUrl := Some (url query) |})
  | None => ret tt
  end;;;
  throw (Error msg).

Definition queryGrafana (query : MetricQuery) (apiKey : string) (datasource : Datasource)
  : M Exception Env Response :=
  let axiosQuery := build_axiosQuery query apiKey in
  let* r := try_axios axiosQuery in
  match r with
  | inr res => ret res
  | inl e => classify e query datasource
  end.

(** ** [queryByMetric] (lines 106-144) *)

Definition wrong_range_message (from to : Z) : string :=
  "Data-kit got wrong range: from " +:+ pretty from +:+ " > to " +:+ pretty to.

Definition with_url (query : MetricQuery) (u : string) : MetricQuery :=
  {| url := u; method := method query; schema := schema query;
     headers := headers query |}.

(** One pass through the body of [while(true)], lines 130-141: the new
    [data] and whether the pass ends in [break]. *)
Definition queryByMetric_pass (metric : Metric) (grafanaUrl : string) (from to : Z)
    (apiKey : string) (data : Table) : M Exception Env (Table * bool) :=
  let query := getQuery (metricQuery metric) from to CHUNK_SIZE
                 (Z.of_nat (length (values data))) in
  let query := with_url query (grafanaUrl +:+ "/" +:+ url query) in
  let* res := queryGrafana query apiKey (datasource metric) in
  let chunk := getResults (metricQuery metric) res in
  let values' := values chunk in
  let data := {| values := values data ++ values'; columns := columns chunk |} in
  ret (data, bool_decide (Z.of_nat (length values') < CHUNK_SIZE)).

(** [while(true)] unrolled [fuel] times; [None] when the loop is still
    running after [fuel] passes. *)
Fixpoint queryByMetric_loop (fuel : nat) (metric : Metric) (grafanaUrl : string)
    (from to : Z) (apiKey : string) (data : Table) : M Exception Env (option Table) :=
  match fuel with
  | O => ret None
  | S fuel' =>
      let* r := queryByMetric_pass metric grafanaUrl from to apiKey data in
      let '(data, break) := r in
      if break then ret (Some data)
      else queryByMetric_loop fuel' metric grafanaUrl from to apiKey data
  end.

Definition queryByMetric (fuel : nat) (metric : Metric) (url : string) (from to : Z)
    (apiKey : string) : M Exception Env (option Table) :=
  throw_if (bool_decide (from > to))
    (BadRange {| message := wrong_range_message from to;
                 datasourceType := Some (type (datasource metric));
                 datasourceUrl := Some url |});;;
  when (bool_decide (from = to))
    (console_log (console_warn "Data-kit got from === to"));;;
  let* grafanaUrl := getGrafanaUrl url in
  let data := {| values := []; columns := [] |} in
  queryByMetric_loop fuel metric grafanaUrl from to apiKey data.

(** ** [DatasourceStream] (lines 39-99) *)

Record DatasourceStream := {
  currentChunk : list TimeSeriesPoint;
  grafanaUrl : string;
  stream_metric : Metric;
  stream_url : string;
  stream_apiKey : string
}.

Definition new_DatasourceStream {St} (metric : Metric) (url apiKey : string)
  : M Exception St DatasourceStream :=
  let* g := getGrafanaUrl url in
  ret {| currentChunk := []; grafanaUrl := g; stream_metric := metric;
         stream_url := url; stream_apiKey := apiKey |}.

(** The async generator [_query] (lines 83-98) as a coroutine: its frame
    holds the arguments and the local [returnedValuesLength]; it is
    suspended before its first statement, at the [yield] of line 90 (with
    the local [chunk] live), or it has completed. *)
Inductive GeneratorState :=
| SuspendedStart
| SuspendedYield (chunk : Table)
| Completed.

Record Generator := {
  gen_from : Z;
  gen_to : Z;
  returnedValuesLength : Z;
  gen_state : GeneratorState
}.

Record IteratorResult := {
  value : option TimeSeriesChunk;
  done : bool
}.

Definition resume (g : Generator) (st : GeneratorState) : Generator :=
  {| gen_from := gen_from g; gen_to := gen_to g;
     returnedValuesLength := returnedValuesLength g; gen_state := st |}.

Definition _query (from to : Z) : Generator :=
  {| gen_from := from; gen_to := to; returnedValuesLength := 0;
     gen_state := SuspendedStart |}.

(** Lines 86-90: from the head of the loop to the [yield]. *)
Definition _query_pass (this : DatasourceStream) (g : Generator)
  : M Exception Env (IteratorResult * Generator) :=
  let query := getQuery (metricQuery (stream_metric this)) (gen_from g) (gen_to g)
                 CHUNK_SIZE (returnedValuesLength g) in
  let query := with_url query (grafanaUrl this +:+ "/" +:+ url query) in
  let* res := queryGrafana query (stream_apiKey this) (datasource (stream_metric this)) in
  let chunk := getResults (metricQuery (stream_metric this)) res in
  ret ({| value := Some {| chunk_columns := columns chunk;
                           chunk_values := values chunk |};
          done := false |},
       resume g (SuspendedYield chunk)).

(** [data.next()]: run the generator to its next [yield] or to its end.  A
    [throw] inside the generator completes it. *)
Definition generator_next (this : DatasourceStream)
  : M Exception (Generator * Env) IteratorResult :=
  λ '(g, s),
    let finished := {| value := None; done := true |} in
    let pass :=
      match _query_pass this g s with
      | (inr (r, g'), s') => (inr r, (g', s'))
      | (inl e, s') => (inl e, (resume g Completed, s'))
      end in
    match gen_state g with
    | SuspendedStart => pass
    | SuspendedYield chunk =>
        if bool_decide (Z.of_nat (length (values chunk)) < CHUNK_SIZE)
        then (inr finished, (resume g Completed, s))
        else pass
    | Completed => (inr finished, (g, s))
    end.

(** The [Readable] that [query] returns: the generator its [read] closure
    captured, and what has been handed to [self.push] so far, [None] for
    [undefined]. *)
Record Readable := {
  data_gen : Generator;
  pushed : list (option TimeSeriesPoint)
}.

(** [this] is the [DatasourceStream]: every [Readable] it creates shares its
    [currentChunk]. *)
Record StreamState := {
  this : DatasourceStream;
  self : Readable;
  env : Env
}.

Definition set_currentChunk (b : list TimeSeriesPoint) (st : StreamState) : StreamState :=
  {| this := {| currentChunk := b; grafanaUrl := grafanaUrl (this st);
                stream_metric := stream_metric (this st);
                stream_url := stream_url (this st);
                stream_apiKey := stream_apiKey (this st) |};
     self := self st; env := env st |}.

Definition set_data (ge : Generator * Env) (st : StreamState) : StreamState :=
  {| this := this st;
     self := {| data_gen := ge.1; pushed := pushed (self st) |};
     env := ge.2 |}.

(** [Array.prototype.concat] returns a new array and leaves its receiver as
    it was; [Array.prototype.shift] removes the first element of its
    receiver and returns it, [undefined] on an empty array. *)
Definition Array_concat {A} (receiver : list A) (x : A) : list A := receiver ++ [x].
Definition Array_shift {A} (receiver : list A) : option A * list A :=
  match receiver with
  | [] => (None, [])
  | x :: rest => (Some x, rest)
  end.

(** An expression statement: the value is computed and dropped. *)
Definition expression_statement {A St} (a : A) : M Exception St unit := ret tt.

Definition currentChunk_shift : M Exception StreamState (option TimeSeriesPoint) :=
  λ st, let '(x, rest) := Array_shift (currentChunk (this st)) in
        (inr x, set_currentChunk rest st).

Definition self_push (x : option TimeSeriesPoint) : M Exception StreamState unit :=
  modify (λ st, {| this := this st;
                   self := {| data_gen := data_gen (self st);
                              pushed := pushed (self st) ++ [x] |};
                   env := env st |}).

Definition data_next : M Exception StreamState IteratorResult :=
  λ st, zoom (λ st, (data_gen (self st), env st)) set_data
             (generator_next (this st)) st.

(** The [read] closure, lines 67-78, with the parameters it names: the
    stream to push to (here the state) and the number of points wanted. *)
Definition read (size : Z) : M Exception StreamState unit :=
  let* st := get in
  when (bool_decide (Z.of_nat (length (currentChunk (this st))) < size))
    (let* r := data_next in
     match value r with
     | None => throw (TypeError_UndefinedProperty "values")
     | Some chunk =>
         for_of (chunk_values chunk) (λ value,
           let* st := get in
           expression_statement
             (Array_concat (currentChunk (this st))
                {| point_columns := chunk_columns chunk;
                   point_values := chunk_values chunk |}))
     end);;;
  for_count (Z.to_nat size)
    (let* x := currentChunk_shift in self_push x).

(** [DatasourceStream.query], lines 52-81. *)
Definition DatasourceStream_query (this : DatasourceStream) (from to : Z)
  : M Exception Env Readable :=
  throw_if (bool_decide (from > to))
    (BadRange {| message := wrong_range_message from to;
                 datasourceType := Some (type (datasource (stream_metric this)));
                 datasourceUrl := Some (stream_url this) |});;;
  when (bool_decide (from = to))
    (console_log (console_warn "Data-kit got from === to"));;;
  let data := _query from to in
  ret {| data_gen := data; pushed := [] |}.

(** A consumer: one [read] per pull, whatever the previous one did; the
    state a [read] leaves behind is the state the next one starts from. *)
Definition after_read (st : StreamState) (size : Z) : StreamState := (read size st).2.
Definition after_pulls (sizes : list Z) (st : StreamState) : StreamState :=
  foldl after_read st sizes.

(** ** Vocabulary for the statements *)

(** The environment after some more console events, and after one more
    request that left the back end in state [w]. *)
Definition logged (s : Env) (evs : list ConsoleEvent) : Env :=
  {| world := world s; requests := requests s; console := console s ++ evs |}.

Definition sent (s : Env) (rq : gmap string Field) (w : World) : Env :=
  {| world := w; requests := requests s ++ [rq]; console := console s |}.

(** The environment past lines 118-120 (and 62-64). *)
Definition warned (from to : Z) (s : Env) : Env :=
  if bool_decide (from = to) then logged s [console_warn "Data-kit got from === to"]
  else s.

(** The message of line 165. *)
Definition fail_message (e : AxiosError) : string :=
  "Data kit: fail while request data: " +:+ error_message e.

(** The request a pass sends for the rows from [offset] on: lines 130-131
    (and 86-87) followed by lines 147-160. *)
Definition page_request (metric : Metric) (grafanaUrl : string) (from to : Z)
    (apiKey : string) (offset : Z) : gmap string Field :=
  let query := getQuery (metricQuery metric) from to CHUNK_SIZE offset in
  build_axiosQuery (with_url query (grafanaUrl +:+ "/" +:+ url query)) apiKey.

Definition row_count (page : Table) : Z := Z.of_nat (length (values page)).

(** The offsets at which a run of pages starts: each one further by the rows
    of the page before it. *)
Fixpoint offsets (offset : Z) (pages : list Table) : list Z :=
  match pages with
  | [] => []
  | page :: pages' => offset :: offsets (offset + row_count page) pages'
  end.

(** [serves req extract w offset pages w']: asked with [req] at [offset] and
    then at each following offset, the back end in state [w] answers with
    [pages], all of them full except the last, which is short, and is left in
    state [w']. *)
Inductive serves (req : Z → gmap string Field) (extract : Response → Table)
  : World → Z → list Table → World → Prop :=
| serves_short w offset res w' :
    axios (req offset) w = (inr res, w') →
    row_count (extract res) < CHUNK_SIZE →
    serves req extract w offset [extract res] w'
| serves_full w offset res w' pages w'' :
    axios (req offset) w = (inr res, w') →
    ¬ row_count (extract res) < CHUNK_SIZE →
    serves req extract w' (offset + row_count (extract res)) pages w'' →
    serves req extract w offset (extract res :: pages) w''.

(** [full_pages req extract w offset pages w' offset']: asked with [req] at
    [offset] and then at each following offset, the back end in state [w]
    answers with [pages], none of them short, and is left in state [w'] with
    [offset'] the offset after the last of them. *)
Inductive full_pages (req : Z → gmap string Field) (extract : Response → Table)
  : World → Z → list Table → World → Z → Prop :=
| full_pages_nil w offset :
    full_pages req extract w offset [] w offset
| full_pages_cons w offset res w' pages w'' offset'' :
    axios (req offset) w = (inr res, w') →
    ¬ row_count (extract res) < CHUNK_SIZE →
    full_pages req extract w' (offset + row_count (extract res)) pages w'' offset'' →
    full_pages req extract w offset (extract res :: pages) w'' offset''.

(** A generator that will yield nothing more: it has completed, or it is
    suspended at the [yield] of a short page and line 92 will leave the loop. *)
Definition exhausted (g : Generator) : Prop :=
  match gen_state g with
  | SuspendedStart => False
  | SuspendedYield chunk => row_count chunk < CHUNK_SIZE
  | Completed => True
  end.

(** The request the generator of a stream sends when it is resumed: lines
    86-88 on the frame of [_query]. *)
Definition stream_request (st : StreamState) : gmap string Field :=
  page_request (stream_metric (this st)) (grafanaUrl (this st))
    (gen_from (data_gen (self st))) (gen_to (data_gen (self st)))
    (stream_apiKey (this st)) (returnedValuesLength (data_gen (self st))).

End Kit.

(** ** A test double

    A back end of [2 * CHUNK_SIZE + 37] rows numbered from 0, served by offset
    and limit, with a query builder that sends both in the request schema and
    a parser for plain [http://host/path] addresses.  The world counts the
    requests served. *)

Module Stub.

Definition total_rows : Z := 2 * CHUNK_SIZE + 37.

Definition offset_query (from to limit offset : Z) : MetricQuery (Payload := Z) :=
  {| url := "api/datasources/proxy/1/query";
     method := Some "GET";
     schema := {[ "offset" := FOther offset; "limit" := FOther limit ]};
     headers := None |}.

Definition body_of (res : Table (Row := Z)) : Table (Row := Z) := res.

Definition metric : Metric :=
  {| datasource := {| type := "influxdb" |};
     metricQuery := {| getQuery := offset_query; getResults := body_of |} |}.

Fixpoint rows_from (n : nat) (first : Z) : list Z :=
  match n with
  | O => []
  | S n' => first :: rows_from n' (first + 1)
  end.

(** The page of a table of [total] rows: the first page is labelled
    differently from the later ones. *)
Definition page (total offset limit : Z) : Table (Row := Z) :=
  {| values := rows_from (Z.to_nat (Z.min limit (total - offset))) offset;
     columns := if bool_decide (offset = 0) then ["time"; "value"]
                else ["time"; "mean"] |}.

Definition serve (total : Z) (request : gmap string (Field (Payload := Z))) (served : nat)
  : (AxiosError (Payload := Z) + Table (Row := Z)) * nat :=
  match request !! "offset", request !! "limit" with
  | Some (FOther offset), Some (FOther limit) =>
      (inr (page total offset limit), S served)
  | _, _ =>
      (inl {| error_message := "Request failed with status code 400";
              errno := None;
              response := Some {| status := 400; data := 0; response_headers := ∅ |} |},
       S served)
  end.

Definition axios := serve total_rows.

(** A back end without an end: whatever the offset, a page of [limit] rows. *)
Definition endless (request : gmap string (Field (Payload := Z))) (served : nat)
  : (AxiosError (Payload := Z) + Table (Row := Z)) * nat :=
  match request !! "offset", request !! "limit" with
  | Some (FOther offset), Some (FOther limit) =>
      (inr (page (offset + limit) offset limit), S served)
  | _, _ =>
      (inl {| error_message := "Request failed with status code 400";
              errno := None;
              response := Some {| status := 400; data := 0; response_headers := ∅ |} |},
       S served)
  end.

(** A back end that serves its first request and rejects the later ones
    with [e]. *)
Definition failing_after_first (e : AxiosError (Payload := Z))
    (request : gmap string (Field (Payload := Z))) (served : nat)
  : (AxiosError (Payload := Z) + Table (Row := Z)) * nat :=
  match served with
  | O => serve total_rows request served
  | S _ => (inl e, S served)
  end.

(** A transport that rejects every request with [e]. *)
Definition rejecting (e : AxiosError (Payload := Z))
    (request : gmap string (Field (Payload := Z))) (served : nat)
  : (AxiosError (Payload := Z) + Table (Row := Z)) * nat :=
  (inl e, served).

Definition connection_refused : AxiosError (Payload := Z) :=
  {| error_message := "connect ECONNREFUSED 127.0.0.1:3000";
     errno := Some "ECONNREFUSED";
     response := None |}.

Definition bad_gateway : AxiosError (Payload := Z) :=
  {| error_message := "Request failed with status code 502";
     errno := None;
     response := Some {| status := 502; data := 0; response_headers := ∅ |} |}.

(** [scheme://host] up to the first slash after it is the origin, the rest
    the path ([/] when there is none). *)
Fixpoint split_slash (s : string) : string * string :=
  match s with
  | EmptyString => ("", "")
  | String c s' =>
      if is_slash c then ("", s)
      else let '(h, p) := split_slash s' in (String c h, p)
  end.

Fixpoint drop_string (n : nat) (s : string) : string :=
  match n, s with
  | S n', String _ s' => drop_string n' s'
  | _, _ => s
  end.

Definition URL (s : string) : option ParsedURL :=
  let parse scheme :=
    let '(host, path) := split_slash (drop_string (String.length scheme) s) in
    if bool_decide (host = "") then None
    else Some {| origin := scheme +:+ host;
                 pathname := if bool_decide (path = "") then "/" else path |} in
  if starts_with "https://" s then parse "https://"
  else if starts_with "http://" s then parse "http://"
  else None.

(** Addresses with another scheme, as [new URL] reads them when the scheme
    is not followed by a slash: a letter, then letters, digits, [+], [-] or
    [.] up to the colon; the rest is the path and the origin is [null].  An
    address without a scheme is rejected. *)
Definition is_letter (c : ascii) : bool :=
  let n := N_of_ascii c in
  (((65 <=? n) && (n <=? 90)) || ((97 <=? n) && (n <=? 122)))%N.

Definition is_scheme_char (c : ascii) : bool :=
  let n := N_of_ascii c in
  is_letter c || ((48 <=? n) && (n <=? 57))%N
  || bool_decide (c = "+"%char) || bool_decide (c = "-"%char)
  || bool_decide (c = "."%char).

Fixpoint split_colon (s : string) : option (string * string) :=
  match s with
  | EmptyString => None
  | String c s' =>
      if bool_decide (c = ":"%char) then Some ("", s')
      else if is_scheme_char c then
        match split_colon s' with
        | Some (scheme, rest) => Some (String c scheme, rest)
        | None => None
        end
      else None
  end.

Definition URL_any_scheme (s : string) : option ParsedURL :=
  match URL s with
  | Some p => Some p
  | None =>
      if starts_with "http:" s || starts_with "https:" s then None
      else match split_colon s with
           | Some (String c _, rest) =>
               if is_letter c && negb (starts_with "/" rest)
               then Some {| origin := "null"; pathname := rest |}
               else None
           | _ => None
           end
  end.

Definition env0 : Env (Payload := Z) := {| world := O; requests := []; console := [] |}.

Definition dashboard : string := "http://localhost:3000/d/x".
Definition gateway : string := "http://localhost:3000".

(** A query as [queryByMetric] hands it to [queryGrafana]. *)
Definition first_query : MetricQuery (Payload := Z) :=
  with_url (offset_query 0 10 CHUNK_SIZE 0)
    (gateway +:+ "/" +:+ url (offset_query 0 10 CHUNK_SIZE 0)).

(** A query builder that sets an [Authorization] header of its own. *)
Definition basic_auth_query : MetricQuery (Payload := Z) :=
  {| url := url first_query; method := method first_query;
     schema := schema first_query;
     headers := Some {[ "Authorization" := "Basic dXNlcjpwYXNz" ]} |}.

(** [new DatasourceStream(metric, dashboard, "key").query(0, 10)] and the
    state in which its first [read] runs. *)
Definition stream0
  : StreamState (Payload := Z) (Response := Table) (Row := Z) (World := nat) :=
  {| this := {| currentChunk := []; grafanaUrl := gateway; stream_metric := metric;
                stream_url := dashboard; stream_apiKey := "key" |};
     self := {| data_gen := _query 0 10; pushed := [] |};
     env := env0 |}.

Definition open_stream (url apiKey : string) (from to : Z)
  : option (StreamState (Payload := Z) (Response := Table) (Row := Z) (World := nat)) :=
  match new_DatasourceStream URL metric url apiKey env0 with
  | (inr this, s) =>
      match DatasourceStream_query this from to s with
      | (inr readable, s') => Some {| this := this; self := readable; env := s' |}
      | (inl _, _) => None
      end
  | (inl _, _) => None
  end.

(** The [offset] property of each request, oldest first. *)
Definition offsets_requested (rqs : list (gmap string (Field (Payload := Z))))
  : list (option Z) :=
  (λ rq, match rq !! "offset" with Some (FOther o) => Some o | _ => None end) <$> rqs.

End Stub.

(** * Properties *)

(** ** The dashboard pattern

    What the regular expression accepts, stated on the path itself: [n]
    slashes, a segment [g] without a slash, then [/d/]. *)

Fixpoint slashes (n : nat) : string :=
  match n with
  | O => ""
  | S n' => String "/" (slashes n')
  end.

Fixpoint no_slash (g : string) : bool :=
  match g with
  | EmptyString => true
  | String c g' => negb (is_slash c) && no_slash g'
  end.

Definition dashboard_path (path g : string) : Prop :=
  ∃ n rest, no_slash g = true ∧ path = slashes n +:+ g +:+ "/d/" +:+ rest.

(** ** Running a [bind] *)

Lemma bind_returned {E St A B} (m : M E St A) (k : A → M E St B) s a s' :
  m s = (inr a, s') → bind m k s = k a s'.
Proof. unfold bind. by intros ->. Qed.

Lemma bind_thrown {E St A B} (m : M E St A) (k : A → M E St B) s e s' :
  m s = (inl e, s') → bind m k s = (inl e, s').
Proof. unfold bind. by intros ->. Qed.

(** ** The regular expression and the dashboard pattern *)

Lemma append_String c s t : String c s +:+ t = String c (s +:+ t).
Proof. reflexivity. Qed.

Lemma append_empty t : "" +:+ t = t.
Proof. reflexivity. Qed.

Lemma is_slash_true c : is_slash c = true ↔ c = "/"%char.
Proof. unfold is_slash. by rewrite bool_decide_eq_true. Qed.

Lemma match_group_sound s g :
  match_group s = Some g → no_slash g = true ∧ ∃ rest, s = g +:+ "/d/" +:+ rest.
Proof.
  revert g. induction s as [|c s IH]; intros g; [done|].
  cbn [match_group].
  assert (Hhead : (if starts_with "/d/" (String c s) then Some "" else None) = Some g →
          no_slash g = true ∧ ∃ rest, String c s = g +:+ "/d/" +:+ rest).
  { destruct (starts_with "/d/" (String c s)) eqn:Hp; [|done].
    intros [= <-]. split; [done|].
    destruct s as [|c1 [|c2 s2]]; cbn in Hp;
      repeat (case_bool_decide; cbn in Hp; try done).
    subst. by exists s2. }
  destruct (is_slash c) eqn:Hc; [done|].
  destruct (match_group s) as [g'|] eqn:Hg; [|done].
  intros [= <-]. destruct (IH g' eq_refl) as [Hn [rest ->]].
  split; [cbn [no_slash]; by rewrite Hc | by exists rest].
Qed.

Lemma match_group_complete g rest :
  no_slash g = true → match_group (g +:+ "/d/" +:+ rest) = Some g.
Proof.
  induction g as [|c g IH]; [done|].
  rewrite append_String. cbn [no_slash match_group].
  intros [Hc Hg]%andb_true_iff. apply negb_true_iff in Hc.
  by rewrite Hc, IH.
Qed.

Lemma match_panelUrl_sound s g :
  match_panelUrl s = Some g → dashboard_path s g.
Proof.
  assert (Hgroup : ∀ s, match_group s = Some g → dashboard_path s g).
  { intros s' [Hn [rest ->]]%match_group_sound. by exists O, rest. }
  induction s as [|c s IH]; cbn [match_panelUrl]; [apply Hgroup|].
  destruct (is_slash c) eqn:Hc; [|apply Hgroup].
  destruct (match_panelUrl s) as [g'|]; [|apply Hgroup].
  intros [= ->]. destruct (IH eq_refl) as (n & rest & Hn & ->).
  apply is_slash_true in Hc as ->. by exists (S n), rest.
Qed.

Lemma match_panelUrl_complete s g :
  dashboard_path s g → is_Some (match_panelUrl s).
Proof.
  intros (n & rest & Hn & ->). induction n as [|n IH].
  - cbn [slashes]. rewrite append_empty.
    pose proof (match_group_complete g rest Hn) as Hg.
    destruct (g +:+ "/d/" +:+ rest) as [|c s]; [done|].
    cbn [match_panelUrl]. rewrite Hg.
    destruct (is_slash c); [destruct (match_panelUrl s)|]; eauto.
  - cbn [slashes]. rewrite append_String. cbn [match_panelUrl].
    destruct IH as [g' ->]. cbn. eauto.
Qed.

(** The longest choice first: a non-empty segment is the capture. *)
Lemma match_panelUrl_segment s g :
  g ≠ "" → dashboard_path s g → match_panelUrl s = Some g.
Proof.
  intros Hne (n & rest & Hn & ->). induction n as [|n IH].
  - destruct g as [|c g]; [done|].
    pose proof (match_group_complete (String c g) rest Hn) as Hm.
    cbn [no_slash] in Hn.
    apply andb_true_iff in Hn as [Hc Hg]. apply negb_true_iff in Hc.
    cbn [slashes]. rewrite append_empty. rewrite append_String in *.
    cbn [match_panelUrl]. by rewrite Hc.
  - cbn [slashes]. rewrite append_String. cbn [match_panelUrl].
    rewrite IH. by cbn.
Qed.

Lemma match_panelUrl_none s :
  (∀ g, ¬ dashboard_path s g) → match_panelUrl s = None.
Proof.
  intros Hno. destruct (match_panelUrl s) as [g|] eqn:Hm; [|done].
  by apply match_panelUrl_sound, Hno in Hm.
Qed.

Lemma match_panelUrl_empty s :
  dashboard_path s "" → (∀ g, dashboard_path s g → g = "") →
  match_panelUrl s = Some "".
Proof.
  intros [g Hm]%match_panelUrl_complete Hall.
  rewrite Hm. f_equal. by apply Hall, match_panelUrl_sound.
Qed.

(** ** Endpoint derivation *)

Section Properties.
Context {Payload Response Row World : Type}.
Context (axios : gmap string (Field (Payload := Payload)) → World →
                 (AxiosError (Payload := Payload) + Response) * World).
Context (URL : string → option ParsedURL).

Implicit Types (query : MetricQuery (Payload := Payload)).
Implicit Types (metric : Metric (Payload := Payload) (Response := Response) (Row := Row)).
Implicit Types (s : Env (Payload := Payload) (World := World)).
Implicit Types (e : AxiosError (Payload := Payload)).
Implicit Types (stream : DatasourceStream (Payload := Payload) (Response := Response) (Row := Row)).

Lemma getGrafanaUrl_parsed {St} url p (s : St) :
  URL url = Some p →
  getGrafanaUrl URL url s =
    (inr match match_panelUrl (pathname p) with
         | None => url
         | Some g => if bool_decide (g = "") then origin p else origin p +:+ "/" +:+ g
         end, s).
Proof.
  intros Hp. unfold getGrafanaUrl, new_URL, bind. rewrite Hp. cbn.
  destruct (match_panelUrl (pathname p)) as [[|c g]|]; done.
Qed.

(** C7. For an input that is a URL, [getGrafanaUrl] returns the origin, a
    slash and the segment when the path is some slashes, a non-empty segment
    without a slash and then [/d/]; the bare origin when the path has that
    shape with an empty segment only; and the input itself when the path has
    not that shape at all. *)
Theorem getGrafanaUrl_derivation {St} url p (s : St) :
  URL url = Some p →
  (∀ g, g ≠ "" → dashboard_path (pathname p) g →
        getGrafanaUrl URL url s = (inr (origin p +:+ "/" +:+ g), s))
  ∧ (dashboard_path (pathname p) "" →
     (∀ g, dashboard_path (pathname p) g → g = "") →
     getGrafanaUrl URL url s = (inr (origin p), s))
  ∧ ((∀ g, ¬ dashboard_path (pathname p) g) →
     getGrafanaUrl URL url s = (inr url, s)).
Proof.
  intros Hp. rewrite (getGrafanaUrl_parsed _ _ _ Hp). repeat split.
  - intros g Hg Hd. rewrite (match_panelUrl_segment _ _ Hg Hd).
    by rewrite bool_decide_false.
  - intros Hd Hall. by rewrite (match_panelUrl_empty _ Hd Hall).
  - intros Hno. by rewrite (match_panelUrl_none _ Hno).
Qed.

(** Where [new URL] throws, so does [getGrafanaUrl]. *)
Lemma getGrafanaUrl_invalid {St} url (s : St) :
  URL url = None → getGrafanaUrl URL url s = (inl (TypeError_InvalidURL url), s).
Proof. intros Hp. unfold getGrafanaUrl, new_URL, bind. by rewrite Hp. Qed.

(** ** The error classifier *)

Lemma classify_refused {A} e query (datasource : Datasource) s p :
  URL (url query) = Some p →
  errno e = Some "ECONNREFUSED" →
  classify (A := A) URL e query datasource s =
    (inl (GrafanaUnavailable {| message := error_message e;
                                datasourceType := None; datasourceUrl := None |}),
     logged s [console_error_request (fail_message e) (pathname p)]).
Proof.
  intros Hp He. unfold classify, new_URL, bind. rewrite Hp. cbn.
  by rewrite He, bool_decide_true.
Qed.

Lemma classify_response {A} e query (datasource : Datasource) s p r :
  URL (url query) = Some p →
  errno e ≠ Some "ECONNREFUSED" →
  response e = Some r →
  classify (A := A) URL e query datasource s =
    (inl (if bool_decide (status r = 401)
          then Error ("Unauthorized. Check the API_KEY. " +:+ error_message e)
          else if bool_decide (status r = 502)
          then DatasourceUnavailable
                 {| message := "datasource " +:+ pathname p
                               +:+ " unavailable, message: " +:+ error_message e;
                    datasourceType := Some (type datasource);
                    datasourceUrl := Some (url query) |}
          else Error (fail_message e)),
     logged s [console_error_request (fail_message e) (pathname p);
               console_error_response r]).
Proof.
  intros Hp He Hr. unfold classify, new_URL, bind. rewrite Hp. cbn.
  rewrite (bool_decide_false _ He), Hr. cbn. unfold logged. cbn.
  rewrite <- (assoc_L (++)). cbn.
  repeat case_bool_decide; done.
Qed.

Lemma classify_no_response {A} e query (datasource : Datasource) s p :
  URL (url query) = Some p →
  errno e ≠ Some "ECONNREFUSED" →
  response e = None →
  classify (A := A) URL e query datasource s =
    (inl (Error (fail_message e)),
     logged s [console_error_request (fail_message e) (pathname p)]).
Proof.
  intros Hp He Hr. unfold classify, new_URL, bind. rewrite Hp. cbn.
  by rewrite (bool_decide_false _ He), Hr.
Qed.

(** With an address [new URL] rejects, line 166 throws before the failure is
    looked at. *)
Lemma classify_invalid_url {A} e query (datasource : Datasource) s :
  URL (url query) = None →
  classify (A := A) URL e query datasource s =
    (inl (TypeError_InvalidURL (url query)), s).
Proof. intros Hp. unfold classify, new_URL, bind. by rewrite Hp. Qed.

Lemma queryGrafana_resolved query apiKey (datasource : Datasource) s res w' :
  axios (build_axiosQuery query apiKey) (world s) = (inr res, w') →
  queryGrafana axios URL query apiKey datasource s =
    (inr res, sent s (build_axiosQuery query apiKey) w').
Proof. intros Ha. unfold queryGrafana, try_axios, bind. by rewrite Ha. Qed.

Lemma queryGrafana_rejected query apiKey (datasource : Datasource) s e w' :
  axios (build_axiosQuery query apiKey) (world s) = (inl e, w') →
  queryGrafana axios URL query apiKey datasource s =
    classify URL e query datasource (sent s (build_axiosQuery query apiKey) w').
Proof. intros Ha. unfold queryGrafana, try_axios, bind. by rewrite Ha. Qed.

(** On a request whose address [new URL] accepts, a failure of the transport
    makes [queryGrafana] throw one error, which the failure determines:
    [GrafanaUnavailable] for [errno] ECONNREFUSED;
    otherwise a plain [Error] about the API key for a response with status
    401, and [DatasourceUnavailable] with the datasource type and the query
    URL for one with status 502; a plain [Error] with the failure's message
    in every other case, a response with another status or no response. *)
Theorem queryGrafana_error_mapping query apiKey (datasource : Datasource) s e w' p :
  axios (build_axiosQuery query apiKey) (world s) = (inl e, w') →
  URL (url query) = Some p →
  let thrown := (queryGrafana axios URL query apiKey datasource s).1 in
  (errno e = Some "ECONNREFUSED" →
     thrown = inl (GrafanaUnavailable
                     {| message := error_message e;
                        datasourceType := None; datasourceUrl := None |}))
  ∧ (errno e ≠ Some "ECONNREFUSED" →
     ∀ r, response e = Some r → status r = 401 →
     thrown = inl (Error ("Unauthorized. Check the API_KEY. " +:+ error_message e)))
  ∧ (errno e ≠ Some "ECONNREFUSED" →
     ∀ r, response e = Some r → status r = 502 →
     thrown = inl (DatasourceUnavailable
                     {| message := "datasource " +:+ pathname p
                                   +:+ " unavailable, message: " +:+ error_message e;
                        datasourceType := Some (type datasource);
                        datasourceUrl := Some (url query) |}))
  ∧ (errno e ≠ Some "ECONNREFUSED" →
     (∀ r, response e = Some r → status r ≠ 401 ∧ status r ≠ 502) →
     thrown = inl (Error ("Data kit: fail while request data: " +:+ error_message e))).
Proof.
  intros Ha Hp thrown. subst thrown.
  rewrite (queryGrafana_rejected _ _ _ _ _ _ Ha). repeat split.
  - intros He. by rewrite (classify_refused _ _ _ _ _ Hp He).
  - intros He r Hr Hs. rewrite (classify_response _ _ _ _ _ _ Hp He Hr).
    by rewrite bool_decide_true.
  - intros He r Hr Hs. rewrite (classify_response _ _ _ _ _ _ Hp He Hr).
    rewrite bool_decide_false, bool_decide_true; [done..|lia].
  - intros He Hother. destruct (response e) as [r|] eqn:Hr.
    + destruct (Hother r eq_refl) as [H401 H502].
      rewrite (classify_response _ _ _ _ _ _ Hp He Hr).
      by rewrite !bool_decide_false.
    + by rewrite (classify_no_response _ _ _ _ _ Hp He Hr).
Qed.

(** C10. The [GrafanaUnavailable] thrown for a refused connection has the
    failure's message and neither [datasourceType] nor [datasourceUrl]; the
    [DatasourceUnavailable] thrown for status 502 has both. *)
Theorem GrafanaUnavailable_has_no_context query apiKey (datasource : Datasource) s e w' p :
  axios (build_axiosQuery query apiKey) (world s) = (inl e, w') →
  URL (url query) = Some p →
  let thrown := (queryGrafana axios URL query apiKey datasource s).1 in
  (errno e = Some "ECONNREFUSED" →
     ∃ d, thrown = inl (GrafanaUnavailable d) ∧ message d = error_message e
          ∧ datasourceType d = None ∧ datasourceUrl d = None)
  ∧ (errno e ≠ Some "ECONNREFUSED" →
     ∀ r, response e = Some r → status r = 502 →
     ∃ d, thrown = inl (DatasourceUnavailable d)
          ∧ datasourceType d = Some (type datasource)
          ∧ datasourceUrl d = Some (url query)).
Proof.
  intros Ha Hp thrown. subst thrown.
  rewrite (queryGrafana_rejected _ _ _ _ _ _ Ha). split.
  - intros He. rewrite (classify_refused _ _ _ _ _ Hp He). eauto.
  - intros He r Hr Hs. rewrite (classify_response _ _ _ _ _ _ Hp He Hr).
    rewrite bool_decide_false, bool_decide_true; [eauto|done|lia].
Qed.

(** ** The request headers *)

Lemma build_axiosQuery_headers query apiKey :
  build_axiosQuery query apiKey !! "headers"
  = Some (FHeaders (request_headers query apiKey)).
Proof.
  unfold build_axiosQuery, lodash_defaults.
  apply lookup_union_Some_l, lookup_insert_eq.
Qed.

Lemma classify_requests {A} e query (datasource : Datasource) s :
  requests (classify (A := A) URL e query datasource s).2 = requests s
  ∧ world (classify (A := A) URL e query datasource s).2 = world s.
Proof.
  destruct (URL (url query)) as [p|] eqn:Hp.
  - destruct (decide (errno e = Some "ECONNREFUSED")) as [He|He].
    + by rewrite (classify_refused _ _ _ _ _ Hp He).
    + destruct (response e) as [r|] eqn:Hr.
      * by rewrite (classify_response _ _ _ _ _ _ Hp He Hr).
      * by rewrite (classify_no_response _ _ _ _ _ Hp He Hr).
  - by rewrite (classify_invalid_url _ _ _ _ Hp).
Qed.

(** Every call of [queryGrafana] hands exactly one request to the transport,
    whether it resolves or rejects. *)
Lemma queryGrafana_requests query apiKey (datasource : Datasource) s :
  requests (queryGrafana axios URL query apiKey datasource s).2
  = (requests s ++ [build_axiosQuery query apiKey])%list.
Proof.
  destruct (axios (build_axiosQuery query apiKey) (world s)) as [[e|res] w'] eqn:Ha.
  - rewrite (queryGrafana_rejected _ _ _ _ _ _ Ha).
    by rewrite (proj1 (classify_requests _ _ _ _)).
  - by rewrite (queryGrafana_resolved _ _ _ _ _ _ Ha).
Qed.

(** C8, as amended. The one request [queryGrafana] sends always has an
    [Authorization] header.  It is [Bearer] and the API key when the query
    builder's headers are absent or have no [Authorization] of their own;
    when they have one, that value is sent instead. *)
Theorem bearer_header_unless_overridden query apiKey (datasource : Datasource) s :
  ∃ rq h,
    requests (queryGrafana axios URL query apiKey datasource s).2
      = (requests s ++ [rq])%list
    ∧ rq !! "headers" = Some (FHeaders h)
    ∧ is_Some (h !! "Authorization")
    ∧ ((headers query = None ∨
        ∃ h0, headers query = Some h0 ∧ h0 !! "Authorization" = None) →
       h !! "Authorization" = Some ("Bearer " +:+ apiKey))
    ∧ (∀ h0 v, headers query = Some h0 → h0 !! "Authorization" = Some v →
       h !! "Authorization" = Some v).
Proof.
  exists (build_axiosQuery query apiKey), (request_headers query apiKey).
  split; [apply queryGrafana_requests|].
  split; [apply build_axiosQuery_headers|].
  unfold request_headers, lodash_merge.
  destruct (headers query) as [h0|]; (split; [|split]).
  - destruct (h0 !! "Authorization") as [v|] eqn:Hv.
    + exists v. by apply lookup_union_Some_l.
    + exists ("Bearer " +:+ apiKey).
      rewrite lookup_union_r by done. apply lookup_singleton_eq.
  - intros [?|(h1 & [= ->] & Hnone)]; [done|].
    rewrite lookup_union_r by done. apply lookup_singleton_eq.
  - intros h1 v [= ->] Hv. by apply lookup_union_Some_l.
  - rewrite lookup_singleton_eq. eauto.
  - intros _. apply lookup_singleton_eq.
  - intros h1 v [=].
Qed.

(** ** The range check *)

(** C5. With [from > to], [queryByMetric] and [DatasourceStream.query] both
    throw [BadRange] with the datasource type and the URL they were given,
    and leave the environment as it was: no request has been sent. *)
Theorem bad_range_before_any_request (fuel : nat) metric url apiKey stream
    (from to : Z) s :
  from > to →
  queryByMetric axios URL fuel metric url from to apiKey s
  = (inl (BadRange {| message := wrong_range_message from to;
                      datasourceType := Some (type (datasource metric));
                      datasourceUrl := Some url |}), s)
  ∧ DatasourceStream_query stream from to s
    = (inl (BadRange {| message := wrong_range_message from to;
                        datasourceType := Some (type (datasource (stream_metric stream)));
                        datasourceUrl := Some (stream_url stream) |}), s).
Proof.
  intros Hgt. unfold queryByMetric, DatasourceStream_query, bind, throw_if.
  rewrite !bool_decide_true by done. by split.
Qed.

(** The stream keeps the URL and the metric its constructor was given. *)
Lemma new_DatasourceStream_fields {St} metric url apiKey (s s' : St) stream :
  new_DatasourceStream URL metric url apiKey s = (inr stream, s') →
  stream_url stream = url ∧ stream_metric stream = metric
  ∧ stream_apiKey stream = apiKey ∧ currentChunk stream = [] ∧ s' = s.
Proof.
  unfold new_DatasourceStream, bind.
  destruct (URL url) as [p|] eqn:Hp.
  - rewrite (getGrafanaUrl_parsed _ _ _ Hp). by intros [= <- <-].
  - by rewrite (getGrafanaUrl_invalid _ _ Hp).
Qed.

(** ** The paging loop of [queryByMetric] *)

Lemma getGrafanaUrl_any_state {St} url g (s : St) :
  (getGrafanaUrl URL url tt).1 = inr g → getGrafanaUrl URL url s = (inr g, s).
Proof.
  destruct (URL url) as [p|] eqn:Hp.
  - rewrite !(getGrafanaUrl_parsed _ _ _ Hp). by intros [= <-].
  - by rewrite (getGrafanaUrl_invalid _ _ Hp).
Qed.

(** Past the range check: the warning, if any, then the loop on an empty
    result. *)
Lemma queryByMetric_enter fuel metric url g (from to : Z) apiKey s :
  (from ≤ to)%Z →
  (getGrafanaUrl URL url tt).1 = inr g →
  queryByMetric axios URL fuel metric url from to apiKey s
  = queryByMetric_loop axios URL fuel metric g from to apiKey
      {| values := []; columns := [] |} (warned from to s).
Proof.
  intros Hle Hg. unfold queryByMetric, bind, throw_if, when, warned.
  rewrite bool_decide_false by lia. cbn.
  case_bool_decide; cbn; by rewrite (getGrafanaUrl_any_state _ _ _ Hg).
Qed.

Lemma queryByMetric_pass_resolved metric g (from to : Z) apiKey (data : Table) s res w' :
  axios (page_request metric g from to apiKey (row_count data)) (world s) = (inr res, w') →
  let page := getResults (metricQuery metric) res in
  queryByMetric_pass axios URL metric g from to apiKey data s
  = (inr ({| values := values data ++ values page; columns := columns page |},
          bool_decide (row_count page < CHUNK_SIZE)),
     sent s (page_request metric g from to apiKey (row_count data)) w').
Proof.
  intros Ha page. unfold queryByMetric_pass, bind.
  by rewrite (queryGrafana_resolved _ _ _ _ _ _ Ha).
Qed.

Lemma serves_nonempty req extract w offset (pages : list (Table (Row := Row))) w' :
  serves axios req extract w offset pages w' → pages ≠ [].
Proof. by intros []. Qed.

Lemma row_count_app (data page : Table (Row := Row)) :
  row_count {| values := values data ++ values page; columns := columns page |}
  = row_count data + row_count page.
Proof. unfold row_count. cbn. rewrite length_app. lia. Qed.

(** Against a back end that serves [pages] from the offset the result has
    reached, the loop returns once it has made as many passes as there are
    pages: the rows are appended in order, the columns are those of the last
    page, and one request per page was sent, each at the offset of its page. *)
Lemma queryByMetric_loop_serves metric g (from to : Z) apiKey w offset pages w' :
  serves axios (page_request metric g from to apiKey) (getResults (metricQuery metric))
         w offset pages w' →
  ∀ fuel (data : Table) s,
    world s = w → row_count data = offset → (length pages ≤ fuel)%nat →
    queryByMetric_loop axios URL fuel metric g from to apiKey data s
    = (inr (Some {| values := values data ++ concat (values <$> pages);
                    columns := default (columns data) (columns <$> last pages) |}),
       {| world := w';
          requests := requests s ++ (page_request metric g from to apiKey <$> offsets offset pages);
          console := console s |}).
Proof.
  induction 1 as [w offset res w' Ha Hshort
                 |w offset res w' pages w'' Ha Hfull Hrest IH];
    intros fuel data s Hw Hoff Hfuel;
    (destruct fuel as [|fuel]; [cbn in Hfuel; lia|]);
    subst w; rewrite <- Hoff in Ha;
    cbn [queryByMetric_loop]; unfold bind;
    rewrite (queryByMetric_pass_resolved _ _ _ _ _ _ _ _ _ Ha).
  - rewrite bool_decide_true by done. cbn.
    by rewrite (right_id_L [] (++)), Hoff.
  - rewrite bool_decide_false by done.
    rewrite (IH fuel); [|done|rewrite row_count_app; by rewrite Hoff|cbn in Hfuel; lia].
    cbn. rewrite <- !(assoc_L (++)), Hoff. cbn.
    apply serves_nonempty in Hrest. destruct pages as [|page pages]; [done|].
    change (last (getResults (metricQuery metric) res :: page :: pages))
      with (last (page :: pages)).
    destruct (last (page :: pages)) eqn:Hlast; [done|].
    by apply last_None in Hlast.
Qed.

(** With fewer passes than pages the loop has not returned: no page before
    the last one ends it. *)
Lemma queryByMetric_loop_running metric g (from to : Z) apiKey w offset pages w' :
  serves axios (page_request metric g from to apiKey) (getResults (metricQuery metric))
         w offset pages w' →
  ∀ fuel (data : Table) s,
    world s = w → row_count data = offset → (fuel < length pages)%nat →
    (queryByMetric_loop axios URL fuel metric g from to apiKey data s).1 = inr None.
Proof.
  induction 1 as [w offset res w' Ha Hshort
                 |w offset res w' pages w'' Ha Hfull Hrest IH];
    intros fuel data s Hw Hoff Hfuel;
    (destruct fuel as [|fuel]; [done|]); [cbn in Hfuel; lia|].
  subst w. rewrite <- Hoff in Ha.
  cbn [queryByMetric_loop]. unfold bind.
  rewrite (queryByMetric_pass_resolved _ _ _ _ _ _ _ _ _ Ha).
  rewrite bool_decide_false by done.
  apply IH; [done|rewrite row_count_app; by rewrite Hoff|cbn in Hfuel; lia].
Qed.

Lemma world_warned (from to : Z) s : world (warned from to s) = world s.
Proof. unfold warned. by case_bool_decide. Qed.

Lemma requests_warned (from to : Z) s : requests (warned from to s) = requests s.
Proof. unfold warned. by case_bool_decide. Qed.

(** [queryGrafana] returns only what the transport resolved with. *)
Lemma queryGrafana_returned query apiKey (datasource : Datasource) s (res : Response) s' :
  queryGrafana axios URL query apiKey datasource s = (inr res, s') →
  axios (build_axiosQuery query apiKey) (world s) = (inr res, world s').
Proof.
  destruct (axios (build_axiosQuery query apiKey) (world s)) as [[e|res'] w'] eqn:Ha.
  - rewrite (queryGrafana_rejected _ _ _ _ _ _ Ha).
    destruct (URL (url query)) as [p|] eqn:Hp.
    + destruct (decide (errno e = Some "ECONNREFUSED")) as [He|He].
      * by rewrite (classify_refused _ _ _ _ _ Hp He).
      * destruct (response e) as [r|] eqn:Hr.
        -- by rewrite (classify_response _ _ _ _ _ _ Hp He Hr).
        -- by rewrite (classify_no_response _ _ _ _ _ Hp He Hr).
    + by rewrite (classify_invalid_url _ _ _ _ Hp).
  - rewrite (queryGrafana_resolved _ _ _ _ _ _ Ha). by intros [= <- <-].
Qed.

(** When the loop returns, the back end has served a run of pages from the
    offset the result had reached: full ones, then the short one the loop
    returned on. *)
Lemma queryByMetric_loop_returned metric g (from to : Z) apiKey :
  ∀ fuel (data : Table) s (data' : Table) s',
    queryByMetric_loop axios URL fuel metric g from to apiKey data s
    = (inr (Some data'), s') →
    ∃ pages,
      (length pages ≤ fuel)%nat
      ∧ serves axios (page_request metric g from to apiKey)
               (getResults (metricQuery metric)) (world s) (row_count data) pages
               (world s').
Proof.
  induction fuel as [|fuel IH]; intros data s data' s' Hrun; [done|].
  cbn [queryByMetric_loop] in Hrun. unfold bind at 1 in Hrun.
  unfold queryByMetric_pass, bind at 1 in Hrun.
  match type of Hrun with context [queryGrafana axios URL ?q ?k ?d s] =>
    destruct (queryGrafana axios URL q k d s) as [[ex|res] s1] eqn:Hq end; [done|].
  apply queryGrafana_returned in Hq.
  change (axios (page_request metric g from to apiKey (row_count data)) (world s)
          = (inr res, world s1)) in Hq.
  unfold ret in Hrun. cbv beta iota zeta in Hrun.
  case_bool_decide as Hshort.
  - injection Hrun as _ <-. exists [getResults (metricQuery metric) res].
    split; [cbn; lia|]. by apply serves_short.
  - apply IH in Hrun as (pages & Hlen & Hserves).
    rewrite row_count_app in Hserves.
    exists (getResults (metricQuery metric) res :: pages).
    split; [cbn; lia|]. by eapply serves_full.
Qed.

(** C2. The loop of [queryByMetric] ends exactly at the first page with
    fewer than [CHUNK_SIZE] rows, and asks for each page at the offset equal
    to the rows it has so far.  For any pages the back end serves, full ones
    and then a short one, it returns after one pass for each and not before,
    with their rows in order and one request for each at that offset; and
    when it returns, that is what the back end has served.  In particular,
    with pages of [CHUNK_SIZE], [CHUNK_SIZE] and 37 rows at the offsets 0,
    [CHUNK_SIZE] and [2 * CHUNK_SIZE], the result has the [2 * CHUNK_SIZE
    + 37] rows of the three pages in the order they came, after exactly
    three requests. *)
Theorem aggregate_paging metric url g (from to : Z) apiKey s :
  (from ≤ to)%Z →
  (getGrafanaUrl URL url tt).1 = inr g →
  let req := page_request metric g from to apiKey in
  let page := getResults (metricQuery metric) in
  (∀ (pages : list Table) (w' : World),
     serves axios req page (world s) 0 pages w' →
     ∀ fuel,
       ((length pages ≤ fuel)%nat →
        ∃ data s',
          queryByMetric axios URL fuel metric url from to apiKey s
          = (inr (Some data), s')
          ∧ values data = concat (values <$> pages)
          ∧ requests s' = (requests s ++ (req <$> offsets 0 pages))%list
          ∧ world s' = w')
       ∧ ((fuel < length pages)%nat →
          (queryByMetric axios URL fuel metric url from to apiKey s).1 = inr None))
  ∧ (∀ fuel (data : Table) s',
       queryByMetric axios URL fuel metric url from to apiKey s = (inr (Some data), s') →
       ∃ pages, (length pages ≤ fuel)%nat
                ∧ serves axios req page (world s) 0 pages (world s'))
  ∧ (∀ (r0 r1 r2 : Response) (w1 w2 w3 : World),
       axios (req 0) (world s) = (inr r0, w1) →
       axios (req CHUNK_SIZE) w1 = (inr r1, w2) →
       axios (req (2 * CHUNK_SIZE)) w2 = (inr r2, w3) →
       row_count (page r0) = CHUNK_SIZE →
       row_count (page r1) = CHUNK_SIZE →
       row_count (page r2) = 37 →
       ∀ fuel,
         ((3 ≤ fuel)%nat →
          ∃ data s',
            queryByMetric axios URL fuel metric url from to apiKey s
            = (inr (Some data), s')
            ∧ values data
              = (values (page r0) ++ values (page r1) ++ values (page r2))%list
            ∧ row_count data = 2 * CHUNK_SIZE + 37
            ∧ requests s'
              = (requests s ++ [req 0; req CHUNK_SIZE; req (2 * CHUNK_SIZE)])%list
            ∧ world s' = w3)
         ∧ ((fuel < 3)%nat →
            (queryByMetric axios URL fuel metric url from to apiKey s).1 = inr None)).
Proof.
  intros Hle Hg req page.
  assert (Hlaw : ∀ (pages : list Table) (w' : World),
     serves axios req page (world s) 0 pages w' →
     ∀ fuel,
       ((length pages ≤ fuel)%nat →
        ∃ data s',
          queryByMetric_loop axios URL fuel metric g from to apiKey
            {| values := []; columns := [] |} (warned from to s)
          = (inr (Some data), s')
          ∧ values data = concat (values <$> pages)
          ∧ requests s' = (requests s ++ (req <$> offsets 0 pages))%list
          ∧ world s' = w')
       ∧ ((fuel < length pages)%nat →
          (queryByMetric_loop axios URL fuel metric g from to apiKey
             {| values := []; columns := [] |} (warned from to s)).1 = inr None)).
  { intros pages w' Hserves fuel. split; intros Hfuel.
    - eexists _, _. split.
      { apply (queryByMetric_loop_serves _ _ _ _ _ _ _ _ _ Hserves);
          [apply world_warned|done|done]. }
      cbn. by rewrite requests_warned.
    - apply (queryByMetric_loop_running _ _ _ _ _ _ _ _ _ Hserves);
        [apply world_warned|done|done]. }
  split; [|split].
  - intros pages w' Hserves fuel.
    rewrite !(queryByMetric_enter _ _ _ _ _ _ _ _ Hle Hg). by apply Hlaw.
  - intros fuel data s'. rewrite (queryByMetric_enter _ _ _ _ _ _ _ _ Hle Hg).
    intros (pages & Hlen & Hserves)%queryByMetric_loop_returned.
    rewrite world_warned in Hserves. by exists pages.
  - intros r0 r1 r2 w1 w2 w3 Ha0 Ha1 Ha2 H0 H1 H2 fuel.
    rewrite !(queryByMetric_enter _ _ _ _ _ _ _ _ Hle Hg).
    assert (Hserves : serves axios req page (world s) 0 [page r0; page r1; page r2] w3).
    { eapply serves_full; [exact Ha0|rewrite H0; unfold CHUNK_SIZE; lia|].
      rewrite H0. eapply serves_full; [exact Ha1|rewrite H1; unfold CHUNK_SIZE; lia|].
      rewrite H1. replace (0 + CHUNK_SIZE + CHUNK_SIZE) with (2 * CHUNK_SIZE) by lia.
      eapply serves_short; [exact Ha2|rewrite H2; unfold CHUNK_SIZE; lia]. }
    destruct (Hlaw _ _ Hserves fuel) as [Hdone Hrunning]. split; [|exact Hrunning].
    intros Hfuel. destruct (Hdone Hfuel) as (data & s' & Hrun & Hvalues & Hsent & Hworld).
    exists data, s'. split; [exact Hrun|]. cbn in Hvalues, Hsent.
    rewrite (right_id_L [] (++)) in Hvalues. rewrite H0, H1 in Hsent.
    replace (0 + CHUNK_SIZE + CHUNK_SIZE) with (2 * CHUNK_SIZE) in Hsent by lia.
    repeat split; [done| |done|done].
    unfold row_count in *. rewrite Hvalues, !length_app. lia.
Qed.

(** C6. With [from = to] and a short first page, [queryByMetric] throws
    nothing and goes through the loop like any other call: it sends the one
    request, returns that page, and the console has the warning as its only
    new event. *)
Theorem equal_range_single_request metric url g (from : Z) apiKey s
    (res : Response) (w1 : World) (fuel : nat) :
  (getGrafanaUrl URL url tt).1 = inr g →
  axios (page_request metric g from from apiKey 0) (world s) = (inr res, w1) →
  row_count (getResults (metricQuery metric) res) < CHUNK_SIZE →
  (1 ≤ fuel)%nat →
  queryByMetric axios URL fuel metric url from from apiKey s
  = (inr (Some {| values := values (getResults (metricQuery metric) res);
                  columns := columns (getResults (metricQuery metric) res) |}),
     {| world := w1;
        requests := requests s ++ [page_request metric g from from apiKey 0];
        console := console s ++ [console_warn "Data-kit got from === to"] |}).
Proof.
  intros Hg Ha Hshort Hfuel.
  rewrite (queryByMetric_enter _ _ _ g) by (done || lia).
  pose proof (serves_short axios _ (getResults (metricQuery metric)) _ _ _ _ Ha Hshort)
    as Hserves.
  rewrite (queryByMetric_loop_serves _ _ _ _ _ _ _ _ _ Hserves fuel _ (warned from from s));
    [|apply world_warned|done|done].
  unfold warned. rewrite bool_decide_true by done. cbn.
  by rewrite (right_id_L [] (++)).
Qed.

(** C9. Whatever pages the back end serves, the [columns] of the result that
    [queryByMetric] returns are the [columns] of the last page: nothing is
    asked of the columns of the pages before it. *)
Theorem aggregate_columns_of_last_page metric url g (from to : Z) apiKey s
    (pages : list Table) (w' : World) (fuel : nat) :
  (from ≤ to)%Z →
  (getGrafanaUrl URL url tt).1 = inr g →
  serves axios (page_request metric g from to apiKey) (getResults (metricQuery metric))
         (world s) 0 pages w' →
  (length pages ≤ fuel)%nat →
  ∃ data s' last_page,
    queryByMetric axios URL fuel metric url from to apiKey s = (inr (Some data), s')
    ∧ last pages = Some last_page
    ∧ columns data = columns last_page.
Proof.
  intros Hle Hg Hserves Hfuel.
  destruct (last pages) as [last_page|] eqn:Hlast.
  - eexists _, _, last_page. split; [|split; [done|]].
    + rewrite (queryByMetric_enter _ _ _ _ _ _ _ _ Hle Hg).
      apply (queryByMetric_loop_serves _ _ _ _ _ _ _ _ _ Hserves);
        [apply world_warned|done|done].
    + cbn. by rewrite Hlast.
  - apply last_None in Hlast. by apply serves_nonempty in Hserves.
Qed.

(** ** The [read] closure *)

Implicit Types (st : StreamState (Payload := Payload) (Response := Response)
                       (Row := Row) (World := World)).

(** The loop of lines 70-72 leaves the state as it found it: [concat] builds
    an array that nothing keeps. *)
Lemma for_of_concat_dropped (chunk : TimeSeriesChunk (Row := Row)) (rows : list Row) st :
  for_of rows (λ value,
    let* st := get in
    expression_statement
      (Array_concat (currentChunk (this st))
         {| point_columns := chunk_columns chunk;
            point_values := chunk_values chunk |})) st
  = (inr tt, st).
Proof. induction rows as [|row rows IH]; [done|]. cbn. unfold bind in *. cbn. apply IH. Qed.

(** Line 76: one point leaves the front of the buffer, or none if it is
    empty. *)
Lemma shift_push_step st :
  ∃ st', (let* x := currentChunk_shift in self_push x) st = (inr tt, st')
         ∧ currentChunk (this st') = drop 1 (currentChunk (this st))
         ∧ data_gen (self st') = data_gen (self st)
         ∧ env st' = env st.
Proof.
  unfold bind, currentChunk_shift, self_push, modify.
  destruct (currentChunk (this st)) as [|x rest] eqn:Hbuf; cbn; eauto.
Qed.

(** The loop of lines 75-77 takes [n] points off the front of the buffer and
    touches neither the generator nor the environment. *)
Lemma for_count_shift_push (n : nat) st :
  ∃ st', for_count n (let* x := currentChunk_shift in self_push x) st = (inr tt, st')
         ∧ currentChunk (this st') = drop n (currentChunk (this st))
         ∧ data_gen (self st') = data_gen (self st)
         ∧ env st' = env st.
Proof.
  revert st. induction n as [|n IH]; intros st.
  - exists st. by rewrite drop_0.
  - destruct (shift_push_step st) as (st1 & Hstep & Hbuf & Hgen & Henv).
    destruct (IH st1) as (st2 & Hrest & Hbuf' & Hgen' & Henv').
    exists st2. cbn [for_count]. rewrite (bind_returned _ _ _ _ _ Hstep).
    split; [done|]. rewrite Hbuf', Hgen', Henv', Hbuf, Hgen, Henv.
    by rewrite drop_drop.
Qed.

Lemma data_next_this st : this (data_next axios URL st).2 = this st.
Proof. unfold data_next, zoom. by destruct (generator_next _ _ _ _) as [r ge]. Qed.

(** The three ways through [read]: the generator throws, it has nothing
    more to yield (and line 70 throws), or the points are handed over. *)
Lemma read_cases (size : Z) st :
  let drain := for_count (Z.to_nat size) (let* x := currentChunk_shift in self_push x) in
  read axios URL size st =
    if bool_decide (Z.of_nat (length (currentChunk (this st))) < size) then
      match data_next axios URL st with
      | (inl e, st1) => (inl e, st1)
      | (inr r, st1) =>
          match value r with
          | None => (inl (TypeError_UndefinedProperty "values"), st1)
          | Some _ => drain st1
          end
      end
    else drain st.
Proof.
  intros drain. unfold read. rewrite (bind_returned _ _ st st st) by done.
  unfold when. case_bool_decide; cbv iota.
  - destruct (data_next axios URL st) as [[e|r] st1] eqn:Hnext.
    + erewrite bind_thrown; [done|]. by erewrite bind_thrown.
    + destruct (value r) as [chunk|] eqn:Hvalue.
      * erewrite bind_returned; [done|].
        erewrite bind_returned by done. rewrite Hvalue. apply for_of_concat_dropped.
      * erewrite bind_thrown; [done|].
        erewrite bind_returned by done. by rewrite Hvalue.
  - by erewrite bind_returned.
Qed.

(** A [read] only ever takes points off the front of the buffer. *)
Lemma read_currentChunk (size : Z) st :
  ∃ k, currentChunk (this (read axios URL size st).2) = drop k (currentChunk (this st)).
Proof.
  rewrite read_cases. case_bool_decide.
  - pose proof (data_next_this st) as Hthis.
    destruct (data_next axios URL st) as [[e|r] st1]; cbn in Hthis.
    + exists O. by rewrite drop_0, <- Hthis.
    + destruct (value r) as [chunk|].
      * destruct (for_count_shift_push (Z.to_nat size) st1) as (st3 & -> & Hbuf & _).
        exists (Z.to_nat size). by rewrite <- Hthis.
      * exists O. by rewrite drop_0, <- Hthis.
  - destruct (for_count_shift_push (Z.to_nat size) st) as (st2 & -> & Hbuf & _).
    by exists (Z.to_nat size).
Qed.

(** A [read] that asks for no more than the buffer holds does not resume the
    generator: no request is sent, the back end is not touched. *)
Lemma read_within_buffer (size : Z) st :
  (size ≤ Z.of_nat (length (currentChunk (this st))))%Z →
  data_gen (self (read axios URL size st).2) = data_gen (self st)
  ∧ env (read axios URL size st).2 = env st.
Proof.
  intros Hsize. rewrite read_cases, bool_decide_false by lia.
  by destruct (for_count_shift_push (Z.to_nat size) st) as (st2 & -> & _ & Hgen & Henv).
Qed.

Lemma after_pulls_cons (size : Z) (sizes : list Z) st :
  after_pulls axios URL (size :: sizes) st
  = after_pulls axios URL sizes (after_read axios URL st size).
Proof. reflexivity. Qed.

Lemma after_pulls_currentChunk (sizes : list Z) st :
  ∃ k, currentChunk (this (after_pulls axios URL sizes st))
       = drop k (currentChunk (this st)).
Proof.
  revert st. induction sizes as [|size sizes IH]; intros st; [by exists O|].
  rewrite after_pulls_cons. destruct (IH (after_read axios URL st size)) as [k ->].
  destruct (read_currentChunk size st) as [k' Hk']. unfold after_read. rewrite Hk'.
  exists (k' + k)%nat. by rewrite drop_drop.
Qed.

(** C3. Whatever the consumer pulls and whatever pages arrive, a buffer that
    holds at most [CHUNK_SIZE] points still does after the pulls; and in the
    state the pulls leave, a [read] for no more points than the buffer holds
    leaves the generator where it was and sends nothing. *)
Theorem backpressure_bound (sizes : list Z) st :
  (Z.of_nat (length (currentChunk (this st))) ≤ CHUNK_SIZE)%Z →
  let st' := after_pulls axios URL sizes st in
  (Z.of_nat (length (currentChunk (this st'))) ≤ CHUNK_SIZE)%Z
  ∧ ∀ size, (size ≤ Z.of_nat (length (currentChunk (this st'))))%Z →
      data_gen (self (after_read axios URL st' size)) = data_gen (self st')
      ∧ env (after_read axios URL st' size) = env st'.
Proof.
  intros Hbound st'. split.
  - subst st'. destruct (after_pulls_currentChunk sizes st) as [k ->].
    rewrite length_drop. lia.
  - intros size Hsize. by apply read_within_buffer.
Qed.

(** ** What the stream sends and hands over *)

(** [_query] never assigns [returnedValuesLength]: a call of [next] sends at
    most one request, always for the offset the frame started with. *)
Lemma generator_next_frame stream (g : Generator) s :
  let r := generator_next axios URL stream (g, s) in
  returnedValuesLength r.2.1 = returnedValuesLength g
  ∧ gen_from r.2.1 = gen_from g ∧ gen_to r.2.1 = gen_to g
  ∧ (requests r.2.2 = requests s
     ∨ requests r.2.2
       = (requests s ++ [page_request (stream_metric stream) (grafanaUrl stream)
                           (gen_from g) (gen_to g) (stream_apiKey stream)
                           (returnedValuesLength g)])%list).
Proof.
  assert (Hpass :
    ∀ r, r = match _query_pass axios URL stream g s with
             | (inr (r, g'), s') => (inr r, (g', s'))
             | (inl e, s') => (inl e, (resume g Completed, s'))
             end →
    returnedValuesLength r.2.1 = returnedValuesLength g
    ∧ gen_from r.2.1 = gen_from g ∧ gen_to r.2.1 = gen_to g
    ∧ requests r.2.2
      = (requests s ++ [page_request (stream_metric stream) (grafanaUrl stream)
                          (gen_from g) (gen_to g) (stream_apiKey stream)
                          (returnedValuesLength g)])%list).
  { intros r ->. unfold _query_pass, bind.
    match goal with |- context [queryGrafana axios URL ?q ?k ?d s] =>
      pose proof (queryGrafana_requests q k d s) as Hreq;
      destruct (queryGrafana axios URL q k d s) as [[e|res] s1] end; by cbn in *. }
  intros r. subst r. unfold generator_next.
  destruct (gen_state g) as [|chunk|].
  - destruct (Hpass _ eq_refl) as (? & ? & ? & ?). eauto 6.
  - case_bool_decide.
    + cbn. eauto 6.
    + destruct (Hpass _ eq_refl) as (? & ? & ? & ?). eauto 6.
  - cbn. eauto 6.
Qed.

(** On an empty buffer line 76 pushes [undefined]. *)
Lemma shift_push_empty st :
  currentChunk (this st) = [] →
  ∃ st', (let* x := currentChunk_shift in self_push x) st = (inr tt, st')
         ∧ currentChunk (this st') = []
         ∧ pushed (self st') = (pushed (self st) ++ [None])%list
         ∧ stream_request st' = stream_request st
         ∧ env st' = env st.
Proof.
  intros Hbuf. unfold bind, currentChunk_shift, self_push, modify. rewrite Hbuf.
  cbn. eauto 6.
Qed.

Lemma for_count_shift_push_empty (n : nat) st :
  currentChunk (this st) = [] →
  ∃ st', for_count n (let* x := currentChunk_shift in self_push x) st = (inr tt, st')
         ∧ currentChunk (this st') = []
         ∧ pushed (self st') = (pushed (self st) ++ replicate n None)%list
         ∧ stream_request st' = stream_request st
         ∧ env st' = env st.
Proof.
  revert st. induction n as [|n IH]; intros st Hbuf.
  - exists st. cbn. by rewrite (right_id_L [] (++)).
  - destruct (shift_push_empty st Hbuf) as (st1 & Hstep & Hbuf1 & Hpush & Hreq & Henv).
    destruct (IH st1 Hbuf1) as (st2 & Hrest & Hbuf2 & Hpush2 & Hreq2 & Henv2).
    exists st2. cbn [for_count]. rewrite (bind_returned _ _ _ _ _ Hstep).
    split; [done|]. rewrite Hbuf2, Hpush2, Hreq2, Henv2, Hpush, Hreq, Henv.
    by rewrite <- (assoc_L (++)).
Qed.

Lemma data_next_frame st :
  let st1 := (data_next axios URL st).2 in
  this st1 = this st
  ∧ pushed (self st1) = pushed (self st)
  ∧ stream_request st1 = stream_request st
  ∧ ∃ n, requests (env st1) = (requests (env st) ++ replicate n (stream_request st))%list.
Proof.
  intros st1. subst st1. unfold data_next, zoom.
  pose proof (generator_next_frame (this st) (data_gen (self st)) (env st))
    as (Hlen & Hfrom & Hto & Hreq).
  destruct (generator_next axios URL (this st) (data_gen (self st), env st))
    as [r [g s']]. cbn in *.
  unfold stream_request. cbn. rewrite Hlen, Hfrom, Hto. repeat split.
  destruct Hreq as [->| ->]; [exists O|exists 1%nat]; [|done].
  cbn. by rewrite (right_id_L [] (++)).
Qed.

(** With an empty buffer, a [read] leaves the buffer empty, pushes nothing
    but [undefined], and every request it sends is the same one. *)
Lemma read_empty_buffer (size : Z) st :
  currentChunk (this st) = [] →
  let st' := (read axios URL size st).2 in
  currentChunk (this st') = []
  ∧ stream_request st' = stream_request st
  ∧ (∃ n, pushed (self st') = (pushed (self st) ++ replicate n None)%list)
  ∧ (∃ n, requests (env st') = (requests (env st) ++ replicate n (stream_request st))%list).
Proof.
  intros Hbuf st'. subst st'. rewrite read_cases.
  assert (Hnone : ∀ st0,
            ∃ n, pushed (self st0) = (pushed (self st0) ++ replicate n None)%list).
  { intros st0. exists O. cbn. by rewrite (right_id_L [] (++)). }
  assert (Hnoreq : ∀ st0,
            ∃ n, requests (env st0)
                 = (requests (env st0) ++ replicate n (stream_request st0))%list).
  { intros st0. exists O. cbn. by rewrite (right_id_L [] (++)). }
  case_bool_decide.
  - pose proof (data_next_frame st) as (Hthis & Hpush & Hreq & Hsent).
    destruct (data_next axios URL st) as [[e|r] st1]; cbn in *.
    + rewrite Hthis, Hpush. eauto.
    + destruct (value r) as [chunk|]; cbn.
      * destruct (for_count_shift_push_empty (Z.to_nat size) st1)
          as (st2 & -> & Hbuf2 & Hpush2 & Hreq2 & Henv2); [by rewrite Hthis|].
        cbn. rewrite Hpush2, Hreq2, Henv2, Hpush. eauto.
      * rewrite Hthis, Hpush. eauto.
  - destruct (for_count_shift_push_empty (Z.to_nat size) st Hbuf)
      as (st2 & -> & Hbuf2 & Hpush2 & Hreq2 & Henv2).
    cbn. rewrite Henv2. eauto.
Qed.

(** Whatever the back end and whatever is pulled from a stream that starts
    with an empty buffer: it hands the consumer nothing but [undefined], and
    every request it sends is the one for the offset it started with. *)
Lemma after_pulls_empty_buffer (sizes : list Z) st :
  currentChunk (this st) = [] →
  let st' := after_pulls axios URL sizes st in
  (∃ n, pushed (self st') = (pushed (self st) ++ replicate n None)%list)
  ∧ (∃ n, requests (env st') = (requests (env st) ++ replicate n (stream_request st))%list).
Proof.
  revert st. induction sizes as [|size sizes IH]; intros st Hbuf st'; subst st'.
  - split; exists O; cbn; by rewrite (right_id_L [] (++)).
  - rewrite after_pulls_cons.
    destruct (read_empty_buffer size st Hbuf) as (Hbuf1 & Hreq1 & [n1 Hpush1] & [m1 Hsent1]).
    destruct (IH _ Hbuf1) as ([n2 Hpush2] & [m2 Hsent2]).
    unfold after_read in *. split.
    + exists (n1 + n2)%nat. rewrite Hpush2, Hpush1.
      by rewrite replicate_add, (assoc_L (++)).
    + exists (m1 + m2)%nat. rewrite Hsent2, Hsent1, Hreq1.
      by rewrite replicate_add, (assoc_L (++)).
Qed.

End Properties.

(** * The test double at work *)

Lemma stub_gateway :
  (getGrafanaUrl Stub.URL Stub.dashboard tt).1 = inr Stub.gateway.
Proof. reflexivity. Qed.

Lemma stub_open_stream : Stub.open_stream Stub.dashboard "key" 0 10 = Some Stub.stream0.
Proof. reflexivity. Qed.

Lemma stub_serve_page total g (from to : Z) apiKey offset served :
  Stub.serve total (page_request Stub.metric g from to apiKey offset) served
  = (inr (Stub.page total offset CHUNK_SIZE), S served).
Proof. reflexivity. Qed.

Lemma length_rows_from n first : length (Stub.rows_from n first) = n.
Proof. revert first. induction n as [|n IH]; intros first; cbn; [done|]. by rewrite IH. Qed.

Lemma stub_row_count total offset limit :
  row_count (Stub.page total offset limit) = Z.max 0 (Z.min limit (total - offset)).
Proof. unfold row_count. cbn. rewrite length_rows_from. lia. Qed.

Lemma stub_no_dashboard_path g : ¬ dashboard_path "/other/path" g.
Proof. by intros [g' [=]]%match_panelUrl_complete. Qed.

Lemma stub_empty_segment g : dashboard_path "/d/abc" g → g = "".
Proof.
  intros Hd. destruct (decide (g = "")) as [|Hne]; [done|].
  by pose proof (match_panelUrl_segment _ _ Hne Hd) as [=].
Qed.

(** The three kinds of address: an organisation's dashboard, a dashboard at
    the root, and an address that is no dashboard. *)
Lemma getGrafanaUrl_derivation_witness :
  getGrafanaUrl Stub.URL "https://host/org1/d/abc" tt = (inr "https://host/org1", tt)
  ∧ getGrafanaUrl Stub.URL "https://host/d/abc" tt = (inr "https://host", tt)
  ∧ getGrafanaUrl Stub.URL "https://host/other/path" tt = (inr "https://host/other/path", tt).
Proof.
  split; [|split].
  - apply (proj1 (getGrafanaUrl_derivation Stub.URL "https://host/org1/d/abc"
                    {| origin := "https://host"; pathname := "/org1/d/abc" |} tt eq_refl)
             "org1"); [done|].
    by exists 1%nat, "abc".
  - apply (proj1 (proj2 (getGrafanaUrl_derivation Stub.URL "https://host/d/abc"
                    {| origin := "https://host"; pathname := "/d/abc" |} tt eq_refl))).
    + by exists 0%nat, "abc".
    + apply stub_empty_segment.
  - apply (proj2 (proj2 (getGrafanaUrl_derivation Stub.URL "https://host/other/path"
                    {| origin := "https://host"; pathname := "/other/path" |} tt eq_refl))).
    apply stub_no_dashboard_path.
Defined.

Lemma queryGrafana_error_mapping_witness :
  (queryGrafana (Stub.rejecting Stub.connection_refused) Stub.URL Stub.first_query "key"
     (datasource Stub.metric) Stub.env0).1
  = inl (GrafanaUnavailable {| message := "connect ECONNREFUSED 127.0.0.1:3000";
                               datasourceType := None; datasourceUrl := None |})
  ∧ (queryGrafana (Stub.rejecting Stub.bad_gateway) Stub.URL Stub.first_query "key"
       (datasource Stub.metric) Stub.env0).1
    = inl (DatasourceUnavailable
             {| message := "datasource /api/datasources/proxy/1/query unavailable, message: Request failed with status code 502";
                datasourceType := Some "influxdb";
                datasourceUrl := Some "http://localhost:3000/api/datasources/proxy/1/query" |}).
Proof.
  split.
  - apply (proj1 (queryGrafana_error_mapping (Stub.rejecting Stub.connection_refused)
                    Stub.URL Stub.first_query "key" (datasource Stub.metric) Stub.env0
                    Stub.connection_refused O
                    {| origin := Stub.gateway;
                       pathname := "/api/datasources/proxy/1/query" |}
                    eq_refl eq_refl)).
    reflexivity.
  - apply (proj1 (proj2 (proj2 (queryGrafana_error_mapping (Stub.rejecting Stub.bad_gateway)
                    Stub.URL Stub.first_query "key" (datasource Stub.metric) Stub.env0
                    Stub.bad_gateway O
                    {| origin := Stub.gateway;
                       pathname := "/api/datasources/proxy/1/query" |}
                    eq_refl eq_refl)))
             ltac:(discriminate)
             {| status := 502; data := 0; response_headers := ∅ |}); reflexivity.
Defined.

Lemma GrafanaUnavailable_has_no_context_witness :
  ∃ d, (queryGrafana (Stub.rejecting Stub.connection_refused) Stub.URL Stub.first_query
          "key" (datasource Stub.metric) Stub.env0).1 = inl (GrafanaUnavailable d)
       ∧ message d = "connect ECONNREFUSED 127.0.0.1:3000"
       ∧ datasourceType d = None ∧ datasourceUrl d = None.
Proof.
  apply (proj1 (GrafanaUnavailable_has_no_context (Stub.rejecting Stub.connection_refused)
                  Stub.URL Stub.first_query "key" (datasource Stub.metric) Stub.env0
                  Stub.connection_refused O
                  {| origin := Stub.gateway;
                     pathname := "/api/datasources/proxy/1/query" |}
                  eq_refl eq_refl)).
  reflexivity.
Defined.

Lemma bad_range_before_any_request_witness :
  queryByMetric Stub.axios Stub.URL 3 Stub.metric Stub.dashboard 10 0 "key" Stub.env0
  = (inl (BadRange {| message := "Data-kit got wrong range: from 10 > to 0";
                      datasourceType := Some "influxdb";
                      datasourceUrl := Some Stub.dashboard |}), Stub.env0)
  ∧ DatasourceStream_query (this Stub.stream0) 10 0 Stub.env0
    = (inl (BadRange {| message := "Data-kit got wrong range: from 10 > to 0";
                        datasourceType := Some "influxdb";
                        datasourceUrl := Some Stub.dashboard |}), Stub.env0).
Proof.
  apply (bad_range_before_any_request Stub.axios Stub.URL 3 Stub.metric Stub.dashboard
           "key" (this Stub.stream0) 10 0 Stub.env0).
  reflexivity.
Defined.

Lemma aggregate_paging_witness :
  ∃ data s',
    queryByMetric Stub.axios Stub.URL 3 Stub.metric Stub.dashboard 0 10 "key" Stub.env0
    = (inr (Some data), s')
    ∧ row_count data = 100037
    ∧ Stub.offsets_requested (requests s') = [Some 0; Some 50000; Some 100000]
    ∧ (queryByMetric Stub.axios Stub.URL 2 Stub.metric Stub.dashboard 0 10 "key"
         Stub.env0).1 = inr None.
Proof.
  destruct (aggregate_paging Stub.axios Stub.URL Stub.metric Stub.dashboard
              Stub.gateway 0 10 "key" Stub.env0 ltac:(lia) stub_gateway)
    as (_ & _ & Hpages).
  pose proof (Hpages (Stub.page Stub.total_rows 0 CHUNK_SIZE)
                (Stub.page Stub.total_rows CHUNK_SIZE CHUNK_SIZE)
                (Stub.page Stub.total_rows (2 * CHUNK_SIZE) CHUNK_SIZE)
                1%nat 2%nat 3%nat
                (stub_serve_page _ _ _ _ _ _ _)
                (stub_serve_page _ _ _ _ _ _ _)
                (stub_serve_page _ _ _ _ _ _ _)
                (stub_row_count _ _ _) (stub_row_count _ _ _) (stub_row_count _ _ _))
    as Hthree.
  destruct (Hthree 3%nat) as [Hdone _]. destruct (Hthree 2%nat) as [_ Hrunning].
  destruct (Hdone ltac:(lia)) as (data & s' & Hrun & _ & Hcount & Hsent & _).
  exists data, s'. split; [exact Hrun|]. split; [exact Hcount|].
  split; [by rewrite Hsent|]. apply Hrunning. lia.
Defined.

Lemma equal_range_single_request_witness :
  queryByMetric (Stub.serve 37) Stub.URL 1 Stub.metric Stub.dashboard 5 5 "key" Stub.env0
  = (inr (Some {| values := Stub.rows_from 37 0; columns := ["time"; "value"] |}),
     {| world := 1%nat;
        requests := [page_request Stub.metric Stub.gateway 5 5 "key" 0];
        console := [console_warn "Data-kit got from === to"] |}).
Proof.
  apply (equal_range_single_request (Stub.serve 37) Stub.URL Stub.metric Stub.dashboard
           Stub.gateway 5 "key" Stub.env0 (Stub.page 37 0 CHUNK_SIZE) 1%nat 1%nat
           stub_gateway (stub_serve_page _ _ _ _ _ _ _)).
  - change (row_count (Stub.page 37 0 CHUNK_SIZE) < CHUNK_SIZE).
    rewrite stub_row_count. reflexivity.
  - lia.
Defined.

Lemma stub_serves_three_pages :
  serves Stub.axios (page_request Stub.metric Stub.gateway 0 10 "key") Stub.body_of
    O 0 [Stub.page Stub.total_rows 0 CHUNK_SIZE;
         Stub.page Stub.total_rows CHUNK_SIZE CHUNK_SIZE;
         Stub.page Stub.total_rows (2 * CHUNK_SIZE) CHUNK_SIZE] 3%nat.
Proof.
  assert (Hcount : ∀ offset, row_count (Stub.body_of (Stub.page Stub.total_rows offset CHUNK_SIZE))
                             = Z.max 0 (Z.min CHUNK_SIZE (Stub.total_rows - offset))).
  { intros offset. apply stub_row_count. }
  pose (req := page_request Stub.metric Stub.gateway 0 10 "key").
  apply (serves_full Stub.axios req Stub.body_of O 0
           (Stub.page Stub.total_rows 0 CHUNK_SIZE) 1%nat _ 3%nat);
    [apply stub_serve_page|rewrite Hcount; by vm_compute|].
  rewrite Hcount.
  apply (serves_full Stub.axios req Stub.body_of 1%nat _
           (Stub.page Stub.total_rows CHUNK_SIZE CHUNK_SIZE) 2%nat _ 3%nat);
    [apply stub_serve_page|rewrite Hcount; by vm_compute|].
  rewrite Hcount.
  apply (serves_short Stub.axios req Stub.body_of 2%nat _
           (Stub.page Stub.total_rows (2 * CHUNK_SIZE) CHUNK_SIZE) 3%nat);
    [apply stub_serve_page|rewrite Hcount; by vm_compute].
Qed.

(** The first page is labelled [value], the last one [mean]: the result is
    labelled [mean]. *)
Lemma aggregate_columns_of_last_page_witness :
  ∃ data s',
    queryByMetric Stub.axios Stub.URL 3 Stub.metric Stub.dashboard 0 10 "key" Stub.env0
    = (inr (Some data), s')
    ∧ columns data = ["time"; "mean"]
    ∧ columns (Stub.page Stub.total_rows 0 CHUNK_SIZE) = ["time"; "value"].
Proof.
  destruct (aggregate_columns_of_last_page Stub.axios Stub.URL Stub.metric Stub.dashboard
              Stub.gateway 0 10 "key" Stub.env0 _ 3%nat 3%nat
              ltac:(lia) stub_gateway stub_serves_three_pages ltac:(cbn; lia))
    as (data & s' & last_page & Hrun & Hlast & Hcolumns).
  exists data, s'. split; [exact Hrun|]. split; [|reflexivity].
  injection Hlast as <-. exact Hcolumns.
Defined.

Lemma backpressure_bound_witness :
  (Z.of_nat (length (currentChunk
     (this (after_pulls Stub.axios Stub.URL [1; 1; 2] Stub.stream0)))) ≤ CHUNK_SIZE)%Z.
Proof.
  apply (backpressure_bound Stub.axios Stub.URL [1; 1; 2] Stub.stream0). vm_compute.
  discriminate.
Defined.

(** C8, as stated, fails: a query builder that sets [Authorization] itself
    has its value sent, not the bearer one. *)
Lemma bearer_header_overridden :
  ¬ ∀ (query : MetricQuery (Payload := Z)) (apiKey : string) rq h,
      rq ∈ requests (queryGrafana Stub.axios Stub.URL query apiKey
                       (datasource Stub.metric) Stub.env0).2 →
      rq !! "headers" = Some (FHeaders h) →
      h !! "Authorization" = Some ("Bearer " +:+ apiKey).
Proof.
  intros Hbearer.
  specialize (Hbearer Stub.basic_auth_query "key"
                (build_axiosQuery Stub.basic_auth_query "key")
                (request_headers Stub.basic_auth_query "key")).
  rewrite queryGrafana_requests in Hbearer.
  specialize (Hbearer ltac:(set_solver) (build_axiosQuery_headers _ _)).
  vm_compute in Hbearer. discriminate.
Qed.

Lemma bearer_header_unless_overridden_witness :
  ∃ rq h,
    requests (queryGrafana Stub.axios Stub.URL Stub.first_query "key"
                (datasource Stub.metric) Stub.env0).2 = [rq]
    ∧ rq !! "headers" = Some (FHeaders h)
    ∧ h !! "Authorization" = Some "Bearer key".
Proof.
  destruct (bearer_header_unless_overridden Stub.axios Stub.URL Stub.first_query "key"
              (datasource Stub.metric) Stub.env0)
    as (rq & h & Hsent & Hheaders & _ & Hbearer & _).
  exists rq, h. split; [exact Hsent|]. split; [exact Hheaders|].
  apply Hbearer. left. reflexivity.
Defined.

(** What the overriding request carries. *)
Lemma basic_auth_header_sent :
  request_headers Stub.basic_auth_query "key" !! "Authorization"
  = Some "Basic dXNlcjpwYXNz".
Proof. reflexivity. Qed.

(** C1, on the test double.  The stream opened on the dashboard for the
    range 0 to 10 is pulled twice, one point each time: it hands over
    [undefined] twice and asks twice for offset 0; the aggregate fetch of the
    same range returns the rows 0, 1, ... and asks for the offsets 0, 50000
    and 100000. *)
Theorem stream_departs_from_aggregate :
  let st := after_pulls Stub.axios Stub.URL [1; 1] Stub.stream0 in
  let fetched := queryByMetric Stub.axios Stub.URL 3 Stub.metric Stub.dashboard 0 10
                   "key" Stub.env0 in
  Stub.open_stream Stub.dashboard "key" 0 10 = Some Stub.stream0
  ∧ pushed (self st) = [None; None]
  ∧ Stub.offsets_requested (requests (env st)) = [Some 0; Some 0]
  ∧ match fetched.1 with
    | inr (Some data) => take 2 (values data) = [0; 1] ∧ row_count data = 100037
    | _ => False
    end
  ∧ Stub.offsets_requested (requests fetched.2) = [Some 0; Some 50000; Some 100000].
Proof. vm_compute. by repeat split. Qed.

(** * Further properties *)

(** The pattern of line 199 matches exactly the paths that begin with some
    slashes, a segment without a slash and [/d/]; it captures that segment,
    and the empty one only when no other reading of the path has a segment. *)
Theorem match_panelUrl_exact (path g : string) :
  match_panelUrl path = Some g
  ↔ dashboard_path path g
    ∧ (g = "" → ∀ g', dashboard_path path g' → g' = "").
Proof.
  split.
  - intros Hm. split; [by apply match_panelUrl_sound|].
    intros -> g' Hd. destruct (decide (g' = "")) as [|Hne]; [done|].
    rewrite (match_panelUrl_segment _ _ Hne Hd) in Hm. by injection Hm.
  - intros [Hd Hempty]. destruct (decide (g = "")) as [->|Hne].
    + apply match_panelUrl_empty; [done|by apply Hempty].
    + by apply match_panelUrl_segment.
Qed.

Section MoreProperties.
Context {Payload Response Row World : Type}.
Context (axios : gmap string (Field (Payload := Payload)) → World →
                 (AxiosError (Payload := Payload) + Response) * World).
Context (URL : string → option ParsedURL).

Implicit Types (query : MetricQuery (Payload := Payload)).
Implicit Types (metric : Metric (Payload := Payload) (Response := Response) (Row := Row)).
Implicit Types (s : Env (Payload := Payload) (World := World)).
Implicit Types (e : AxiosError (Payload := Payload)).
Implicit Types (stream : DatasourceStream (Payload := Payload) (Response := Response) (Row := Row)).
Implicit Types (st : StreamState (Payload := Payload) (Response := Response)
                       (Row := Row) (World := World)).

(** ** The request object *)

(** [_.defaults] fills, it does not replace: the request goes to [query.url]
    with the merged headers whatever the schema says, the method is the
    query's when it has one and the schema's otherwise, and every other
    property of the schema is sent as it is. *)
Theorem schema_fills_the_request query apiKey :
  let rq := build_axiosQuery query apiKey in
  rq !! "url" = Some (FString (url query))
  ∧ rq !! "headers" = Some (FHeaders (request_headers query apiKey))
  ∧ rq !! "method" = match method query with
                     | Some m => Some (FString m)
                     | None => schema query !! "method"
                     end
  ∧ ∀ k, k ≠ "url" → k ≠ "headers" → k ≠ "method" → rq !! k = schema query !! k.
Proof.
  unfold build_axiosQuery, lodash_defaults. cbv zeta. repeat split.
  - apply lookup_union_Some_l. by rewrite lookup_insert_ne, lookup_insert_eq.
  - apply lookup_union_Some_l, lookup_insert_eq.
  - destruct (method query) as [m|].
    + apply lookup_union_Some_l.
      by rewrite !lookup_insert_ne, lookup_singleton_eq.
    + apply lookup_union_r. by rewrite !lookup_insert_ne, lookup_empty.
  - intros k Hurl Hheaders Hmethod. apply lookup_union_r.
    rewrite !lookup_insert_ne by done.
    destruct (method query); [by rewrite lookup_singleton_ne|apply lookup_empty].
Qed.

(** Every header of the query builder is sent with the value it gave, and
    nothing else is sent but [Authorization]. *)
Theorem query_headers_are_sent query apiKey (h0 : gmap string string) :
  headers query = Some h0 →
  (∀ k v, h0 !! k = Some v → request_headers query apiKey !! k = Some v)
  ∧ (∀ k, k ≠ "Authorization" → request_headers query apiKey !! k = h0 !! k)
  ∧ dom (request_headers query apiKey) = dom h0 ∪ {[ "Authorization" ]}.
Proof.
  intros Hh. unfold request_headers, lodash_merge. rewrite Hh. repeat split.
  - intros k v Hk. by apply lookup_union_Some_l.
  - intros k Hk. destruct (h0 !! k) as [v|] eqn:Hv.
    + by apply lookup_union_Some_l.
    + rewrite lookup_union_r by done. by apply lookup_singleton_ne.
  - by rewrite dom_union_L, dom_singleton_L.
Qed.

(** ** What a failure leaves behind *)

(** A rejected request was sent once; the console has the failure's message
    with the path of the request and, unless the connection was refused, the
    response when there is one. *)
Theorem queryGrafana_failure_log query apiKey (datasource : Datasource) s e w' p :
  axios (build_axiosQuery query apiKey) (world s) = (inl e, w') →
  URL (url query) = Some p →
  let s' := (queryGrafana axios URL query apiKey datasource s).2 in
  world s' = w'
  ∧ requests s' = (requests s ++ [build_axiosQuery query apiKey])%list
  ∧ console s'
    = (console s ++
       console_error_request (fail_message e) (pathname p)
       :: match response e with
          | Some r => if bool_decide (errno e = Some "ECONNREFUSED") then []
                      else [console_error_response r]
          | None => []
          end)%list.
Proof.
  intros Ha Hp s'. subst s'. rewrite (queryGrafana_rejected axios URL _ _ _ _ _ _ Ha).
  destruct (decide (errno e = Some "ECONNREFUSED")) as [He|He].
  - rewrite (classify_refused URL _ _ _ _ _ Hp He). rewrite bool_decide_true by done.
    by destruct (response e).
  - destruct (response e) as [r|] eqn:Hr.
    + rewrite (classify_response URL _ _ _ _ _ _ Hp He Hr).
      by rewrite (bool_decide_false _ He).
    + by rewrite (classify_no_response URL _ _ _ _ _ Hp He Hr).
Qed.

(** When the address of the request is one [new URL] rejects, line 166
    throws: whatever the failure was, the caller gets a [TypeError] for the
    address, and nothing is written to the console. *)
Theorem invalid_address_hides_the_failure query apiKey (datasource : Datasource) s e w' :
  axios (build_axiosQuery query apiKey) (world s) = (inl e, w') →
  URL (url query) = None →
  queryGrafana axios URL query apiKey datasource s
  = (inl (TypeError_InvalidURL (url query)),
     {| world := w';
        requests := requests s ++ [build_axiosQuery query apiKey];
        console := console s |}).
Proof.
  intros Ha Hp. rewrite (queryGrafana_rejected axios URL _ _ _ _ _ _ Ha).
  by rewrite (classify_invalid_url URL _ _ _ _ Hp).
Qed.

(** ** Addresses that are no URL *)

(** With a range that passes the check and an address [new URL] rejects,
    [queryByMetric] throws the [TypeError] after the warning, if any, and the
    constructor of [DatasourceStream] throws it at once; neither sends a
    request. *)
Theorem invalid_url_before_any_request (fuel : nat) metric url apiKey (from to : Z) s :
  (from ≤ to)%Z →
  URL url = None →
  queryByMetric axios URL fuel metric url from to apiKey s
  = (inl (TypeError_InvalidURL url), warned from to s)
  ∧ requests (warned from to s) = requests s
  ∧ new_DatasourceStream URL metric url apiKey s = (inl (TypeError_InvalidURL url), s).
Proof.
  intros Hle Hp. split; [|split].
  - unfold queryByMetric, bind, throw_if, when, warned.
    rewrite bool_decide_false by lia. cbn.
    case_bool_decide; cbn; by rewrite (getGrafanaUrl_invalid URL _ _ Hp).
  - apply requests_warned.
  - unfold new_DatasourceStream, bind. by rewrite (getGrafanaUrl_invalid URL _ _ Hp).
Qed.

(** ** The paging loop, in general *)

(** Whatever pages the back end serves before its first short one,
    [queryByMetric] returns after one pass for each: their rows in order,
    the columns of the last, one request sent at the offset of each page, and
    a console that has at most the warning more.  With fewer passes it is
    still in its loop. *)
Theorem queryByMetric_paging metric url g (from to : Z) apiKey s
    (pages : list Table) (w' : World) :
  (from ≤ to)%Z →
  (getGrafanaUrl URL url tt).1 = inr g →
  serves axios (page_request metric g from to apiKey) (getResults (metricQuery metric))
         (world s) 0 pages w' →
  ∀ fuel,
    ((length pages ≤ fuel)%nat →
     queryByMetric axios URL fuel metric url from to apiKey s
     = (inr (Some {| values := concat (values <$> pages);
                     columns := default [] (columns <$> last pages) |}),
        {| world := w';
           requests := requests s
                       ++ (page_request metric g from to apiKey <$> offsets 0 pages);
           console := console (warned from to s) |}))
    ∧ ((fuel < length pages)%nat →
       (queryByMetric axios URL fuel metric url from to apiKey s).1 = inr None).
Proof.
  intros Hle Hg Hserves fuel.
  rewrite (queryByMetric_enter axios URL _ _ _ _ _ _ _ _ Hle Hg). split; intros Hfuel.
  - rewrite (queryByMetric_loop_serves axios URL _ _ _ _ _ _ _ _ _ Hserves fuel _
               (warned from to s)); [|apply world_warned|done|done].
    by rewrite requests_warned.
  - apply (queryByMetric_loop_running axios URL _ _ _ _ _ _ _ _ _ Hserves);
      [apply world_warned|done|done].
Qed.

Lemma queryByMetric_loop_full_forever metric g (from to : Z) apiKey :
  (∀ (w : World) offset, ∃ res w',
      axios (page_request metric g from to apiKey offset) w = (inr res, w')
      ∧ ¬ row_count (getResults (metricQuery metric) res) < CHUNK_SIZE) →
  ∀ fuel (data : Table) s, ∃ s',
    queryByMetric_loop axios URL fuel metric g from to apiKey data s = (inr None, s')
    ∧ length (requests s') = (length (requests s) + fuel)%nat.
Proof.
  intros Hfull. induction fuel as [|fuel IH]; intros data s.
  - exists s. split; [done|lia].
  - destruct (Hfull (world s) (row_count data)) as (res & w' & Ha & Hlong).
    cbn [queryByMetric_loop].
    rewrite (bind_returned _ _ _ _ _
               (queryByMetric_pass_resolved axios URL _ _ _ _ _ _ _ _ _ Ha)).
    rewrite bool_decide_false by done.
    match goal with |- context [queryByMetric_loop _ _ _ _ _ _ _ _ ?d ?s1] =>
      destruct (IH d s1) as (s' & -> & Hlen) end.
    exists s'. split; [done|]. rewrite Hlen. cbn. rewrite length_app. cbn. lia.
Qed.

(** Against a back end that never answers with a short page the loop never
    ends: after any number of passes [queryByMetric] has returned nothing and
    has sent one request for each pass. *)
Theorem queryByMetric_runs_on_full_pages metric url g (from to : Z) apiKey s :
  (from ≤ to)%Z →
  (getGrafanaUrl URL url tt).1 = inr g →
  (∀ (w : World) offset, ∃ res w',
      axios (page_request metric g from to apiKey offset) w = (inr res, w')
      ∧ ¬ row_count (getResults (metricQuery metric) res) < CHUNK_SIZE) →
  ∀ fuel, ∃ s',
    queryByMetric axios URL fuel metric url from to apiKey s = (inr None, s')
    ∧ length (requests s') = (length (requests s) + fuel)%nat.
Proof.
  intros Hle Hg Hfull fuel.
  rewrite (queryByMetric_enter axios URL _ _ _ _ _ _ _ _ Hle Hg).
  destruct (queryByMetric_loop_full_forever _ _ _ _ _ Hfull fuel
              {| values := []; columns := [] |} (warned from to s)) as (s' & -> & Hlen).
  exists s'. split; [done|]. by rewrite Hlen, requests_warned.
Qed.

(** The [catch] block never falls through: it leaves by a [throw]. *)
Lemma classify_throws {A} e query (datasource : Datasource) s :
  ∃ ex s', classify (A := A) URL e query datasource s = (inl ex, s').
Proof.
  destruct (URL (url query)) as [p|] eqn:Hp.
  - destruct (decide (errno e = Some "ECONNREFUSED")) as [He|He].
    + rewrite (classify_refused URL _ _ _ _ _ Hp He). eauto.
    + destruct (response e) as [r|] eqn:Hr.
      * rewrite (classify_response URL _ _ _ _ _ _ Hp He Hr). eauto.
      * rewrite (classify_no_response URL _ _ _ _ _ Hp He Hr). eauto.
  - rewrite (classify_invalid_url URL _ _ _ _ Hp). eauto.
Qed.

Lemma queryGrafana_rejected_throws query apiKey (datasource : Datasource) s e w' :
  axios (build_axiosQuery query apiKey) (world s) = (inl e, w') →
  ∃ ex s', queryGrafana axios URL query apiKey datasource s = (inl ex, s').
Proof.
  intros Ha. rewrite (queryGrafana_rejected axios URL _ _ _ _ _ _ Ha).
  apply classify_throws.
Qed.

(** Past a run of full pages the loop is where it would be had it started
    with their rows. *)
Lemma queryByMetric_loop_full_pages metric g (from to : Z) apiKey w offset pages w' offset' :
  full_pages axios (page_request metric g from to apiKey) (getResults (metricQuery metric))
             w offset pages w' offset' →
  ∀ fuel (data : Table) s,
    world s = w → row_count data = offset →
    ∃ (data' : Table) s',
      queryByMetric_loop axios URL (length pages + fuel) metric g from to apiKey data s
      = queryByMetric_loop axios URL fuel metric g from to apiKey data' s'
      ∧ row_count data' = offset' ∧ world s' = w' ∧ console s' = console s
      ∧ requests s'
        = (requests s ++ (page_request metric g from to apiKey <$> offsets offset pages))%list.
Proof.
  induction 1 as [w offset|w offset res w' pages w'' offset'' Ha Hfull Hrest IH];
    intros fuel data s Hw Hoff.
  - exists data, s. cbn. by rewrite (right_id_L [] (++)).
  - subst w. rewrite <- Hoff in Ha. cbn [length Nat.add queryByMetric_loop].
    rewrite (bind_returned _ _ _ _ _
               (queryByMetric_pass_resolved axios URL _ _ _ _ _ _ _ _ _ Ha)).
    rewrite bool_decide_false by done.
    match goal with |- context [queryByMetric_loop _ _ _ _ _ _ _ _ ?d ?s1] =>
      destruct (IH fuel d s1) as (data' & s' & -> & Hcount & Hworld & Hconsole & Hsent) end;
      [done|rewrite row_count_app; by rewrite Hoff|].
    exists data', s'. split; [done|]. repeat split; [done..|].
    rewrite Hsent. cbn. by rewrite <- (assoc_L (++)), Hoff.
Qed.

(** A request that fails after some full pages ends the call with what
    [queryGrafana] throws for it: the rows fetched so far are not returned,
    and the failed request is the last one sent. *)
Theorem failure_discards_the_pages metric address g (from to : Z) apiKey s
    (pages : list Table) (w' : World) (offset' : Z) e (w'' : World) (fuel : nat) :
  (from ≤ to)%Z →
  (getGrafanaUrl URL address tt).1 = inr g →
  full_pages axios (page_request metric g from to apiKey) (getResults (metricQuery metric))
             (world s) 0 pages w' offset' →
  axios (page_request metric g from to apiKey offset') w' = (inl e, w'') →
  (length pages < fuel)%nat →
  let query := getQuery (metricQuery metric) from to CHUNK_SIZE offset' in
  ∃ ex s',
    queryByMetric axios URL fuel metric address from to apiKey s = (inl ex, s')
    ∧ queryGrafana axios URL (with_url query (g +:+ "/" +:+ url query)) apiKey
        (datasource metric)
        {| world := w';
           requests := requests s
                       ++ (page_request metric g from to apiKey <$> offsets 0 pages);
           console := console (warned from to s) |}
      = (inl ex, s')
    ∧ requests s'
      = (requests s ++ (page_request metric g from to apiKey <$> offsets 0 pages)
         ++ [page_request metric g from to apiKey offset'])%list.
Proof.
  intros Hle Hg Hpages Ha Hfuel query.
  rewrite (queryByMetric_enter axios URL _ _ _ _ _ _ _ _ Hle Hg).
  replace fuel with (length pages + S (fuel - S (length pages)))%nat by lia.
  destruct (queryByMetric_loop_full_pages _ _ _ _ _ _ _ _ _ _ Hpages
              (S (fuel - S (length pages))) {| values := []; columns := [] |}
              (warned from to s) (world_warned _ _ _) eq_refl)
    as (data' & s1 & -> & Hcount & Hworld & Hconsole & Hsent).
  rewrite requests_warned in Hsent.
  assert (Hs1 : s1 = {| world := w';
                        requests := requests s ++ (page_request metric g from to apiKey
                                                    <$> offsets 0 pages);
                        console := console (warned from to s) |}).
  { destruct s1. cbn in *. by subst. }
  rewrite <- Hs1. rewrite <- Hworld, <- Hcount in Ha.
  destruct (queryGrafana_rejected_throws _ _ (datasource metric) _ _ _ Ha) as (ex & s' & Hthrown).
  pose proof (queryGrafana_requests axios URL
                (with_url query (g +:+ "/" +:+ url query)) apiKey (datasource metric) s1)
    as Hreq.
  subst query. rewrite <- Hcount. unfold page_request in Hthrown, Hreq. cbv zeta in *.
  rewrite <- Hcount in Hreq. rewrite Hthrown in Hreq. cbn in Hreq.
  exists ex, s'. split; [|split; [exact Hthrown|]].
  - cbn [queryByMetric_loop]. unfold queryByMetric_pass.
    erewrite bind_thrown; [done|]. by erewrite bind_thrown.
  - rewrite Hreq, Hsent. unfold page_request. by rewrite <- (assoc_L (++)).
Qed.

(** ** The [read] closure and its generator *)

Lemma data_next_unfold st :
  data_next axios URL st
  = let r := generator_next axios URL (this st) (data_gen (self st), env st) in
    (r.1, set_data r.2 st).
Proof. unfold data_next, zoom. by destruct (generator_next _ _ _ _). Qed.

(** A [read] resumes the generator at most once, so it sends at most one
    request, the one of the generator's frame. *)
Theorem read_sends_at_most_one_request (size : Z) st :
  let st' := (read axios URL size st).2 in
  requests (env st') = requests (env st)
  ∨ requests (env st') = (requests (env st) ++ [stream_request st])%list.
Proof.
  intros st'. subst st'. rewrite read_cases.
  destruct (for_count_shift_push (Z.to_nat size) st) as (st2 & Hdrain & _ & _ & Henv).
  case_bool_decide; [|rewrite Hdrain; left; cbn; by rewrite Henv].
  rewrite data_next_unfold.
  pose proof (generator_next_frame axios URL (this st) (data_gen (self st)) (env st))
    as (_ & _ & _ & Hreq).
  destruct (generator_next axios URL (this st) (data_gen (self st), env st))
    as [[ex|r] [g1 s1]]; cbn in *; [exact Hreq|].
  destruct (value r) as [chunk|]; [|exact Hreq].
  match goal with |- context [for_count _ _ ?st1] =>
    destruct (for_count_shift_push (Z.to_nat size) st1) as (st3 & -> & _ & _ & Henv3) end.
  cbn in *. rewrite Henv3. exact Hreq.
Qed.

(** A [read] for no points, or for a negative number of them, does nothing. *)
Theorem read_of_nothing (size : Z) st :
  (size ≤ 0)%Z → read axios URL size st = (inr tt, st).
Proof.
  intros Hsize. rewrite read_cases, bool_decide_false by lia.
  by replace (Z.to_nat size) with O by lia.
Qed.

(** Once the generator has nothing more to yield, a [read] for more than the
    buffer holds throws the [TypeError] of line 70: no end of the stream is
    signalled, nothing is pushed and nothing is sent, and the generator is
    completed. *)
Theorem read_past_the_end (size : Z) st :
  exhausted (data_gen (self st)) →
  Z.of_nat (length (currentChunk (this st))) < size →
  let r := read axios URL size st in
  r.1 = inl (TypeError_UndefinedProperty "values")
  ∧ this r.2 = this st ∧ env r.2 = env st
  ∧ pushed (self r.2) = pushed (self st)
  ∧ gen_state (data_gen (self r.2)) = Completed.
Proof.
  intros Hdone Hsize r. subst r. rewrite read_cases, bool_decide_true by done.
  rewrite data_next_unfold. unfold generator_next, exhausted in *.
  destruct (gen_state (data_gen (self st))) as [|chunk|] eqn:Hstate; [done|..].
  - unfold row_count in Hdone. by rewrite bool_decide_true.
  - done.
Qed.

(** When the request of the generator fails, the [read] that resumed it
    throws what [queryGrafana] throws, pushes nothing, and leaves the
    generator completed: the stream yields nothing after a failure. *)
Theorem read_failure_completes_the_generator (size : Z) st e (w' : World) :
  ¬ exhausted (data_gen (self st)) →
  Z.of_nat (length (currentChunk (this st))) < size →
  axios (stream_request st) (world (env st)) = (inl e, w') →
  let g := data_gen (self st) in
  let query := getQuery (metricQuery (stream_metric (this st))) (gen_from g) (gen_to g)
                 CHUNK_SIZE (returnedValuesLength g) in
  ∃ ex st',
    read axios URL size st = (inl ex, st')
    ∧ queryGrafana axios URL
        (with_url query (grafanaUrl (this st) +:+ "/" +:+ url query))
        (stream_apiKey (this st)) (datasource (stream_metric (this st))) (env st)
      = (inl ex, env st')
    ∧ exhausted (data_gen (self st'))
    ∧ pushed (self st') = pushed (self st)
    ∧ this st' = this st.
Proof.
  intros Hlive Hsize Ha g query.
  destruct (queryGrafana_rejected_throws _ _
              (datasource (stream_metric (this st))) _ _ _ Ha) as (ex & s' & Hthrown).
  exists ex, (set_data (resume g Completed, s') st).
  rewrite read_cases, bool_decide_true by done.
  rewrite data_next_unfold. unfold generator_next, _query_pass, exhausted in *.
  subst g query. unfold bind. cbv zeta. rewrite Hthrown.
  destruct (gen_state (data_gen (self st))) as [|chunk|] eqn:Hstate; [done| |done].
  unfold row_count in Hlive. by rewrite bool_decide_false.
Qed.

(** A stream as its constructor and [query] leave it has sent nothing yet;
    and whatever is then pulled from it and whatever the back end answers,
    its buffer stays empty, it pushes nothing but [undefined], and all its
    requests are the one for offset 0. *)
Theorem fresh_stream_yields_undefined metric address apiKey (from to : Z) s
    stream s1 (readable : Readable) s2 (sizes : list Z) :
  new_DatasourceStream URL metric address apiKey s = (inr stream, s1) →
  DatasourceStream_query stream from to s1 = (inr readable, s2) →
  requests s2 = requests s
  ∧ let st' := after_pulls axios URL sizes
                 {| this := stream; self := readable; env := s2 |} in
    currentChunk (this st') = []
    ∧ (∃ n, pushed (self st') = replicate n None)
    ∧ ∃ n, requests (env st')
           = (requests s
              ++ replicate n (page_request metric (grafanaUrl stream) from to apiKey 0))%list.
Proof.
  intros Hnew Hquery.
  destruct (new_DatasourceStream_fields URL _ _ _ _ _ _ Hnew)
    as (_ & Hmetric & Hkey & Hbuf & ->).
  unfold DatasourceStream_query, bind, throw_if, when in Hquery.
  case_bool_decide; [done|]. cbn in Hquery.
  assert (readable = {| data_gen := _query from to; pushed := [] |}
          ∧ requests s2 = requests s) as [-> Hsent].
  { case_bool_decide; cbn in Hquery; by injection Hquery as <- <-. }
  split; [done|]. intros st'. subst st'.
  match goal with |- context [after_pulls _ _ _ ?st0] =>
    destruct (after_pulls_currentChunk axios URL sizes st0) as [k Hk];
    destruct (after_pulls_empty_buffer axios URL sizes st0 Hbuf) as ([n Hn] & [m Hm]) end.
  cbn in *. rewrite Hk, Hbuf, drop_nil. split; [done|]. split; [by exists n|].
  exists m. rewrite Hm, Hsent. unfold stream_request. cbn. by rewrite Hmetric, Hkey.
Qed.

Lemma _query_pass_resolved stream (g : Generator) s (res : Response) (w' : World) :
  let rq := page_request (stream_metric stream) (grafanaUrl stream) (gen_from g)
              (gen_to g) (stream_apiKey stream) (returnedValuesLength g) in
  let page := getResults (metricQuery (stream_metric stream)) res in
  axios rq (world s) = (inr res, w') →
  _query_pass axios URL stream g s
  = (inr ({| value := Some {| chunk_columns := columns page;
                              chunk_values := values page |};
             done := false |},
          resume g (SuspendedYield page)),
     sent s rq w').
Proof.
  intros rq page Ha. unfold _query_pass.
  by rewrite (bind_returned _ _ _ _ _ (queryGrafana_resolved axios URL _ _ _ _ _ _ Ha)).
Qed.

(** When the request of the generator is answered, a [read] from an empty
    buffer returns: the generator is suspended at its [yield] with the page
    that came, the buffer is still empty, and the consumer has been handed
    [undefined] as many times as it asked for points. *)
Theorem read_drops_the_page (size : Z) st (res : Response) (w' : World) :
  ¬ exhausted (data_gen (self st)) →
  currentChunk (this st) = [] →
  0 < size →
  axios (stream_request st) (world (env st)) = (inr res, w') →
  ∃ st',
    read axios URL size st = (inr tt, st')
    ∧ currentChunk (this st') = []
    ∧ pushed (self st') = (pushed (self st) ++ replicate (Z.to_nat size) None)%list
    ∧ gen_state (data_gen (self st'))
      = SuspendedYield (getResults (metricQuery (stream_metric (this st))) res)
    ∧ env st' = sent (env st) (stream_request st) w'.
Proof.
  intros Hlive Hbuf Hsize Ha.
  assert (Hdrain : ∀ st1,
    currentChunk (this st1) = [] →
    ∃ st', for_count (Z.to_nat size) (let* x := currentChunk_shift in self_push x) st1
           = (inr tt, st')
           ∧ currentChunk (this st') = []
           ∧ pushed (self st') = (pushed (self st1) ++ replicate (Z.to_nat size) None)%list
           ∧ data_gen (self st') = data_gen (self st1)
           ∧ env st' = env st1).
  { intros st1 Hbuf1.
    destruct (for_count_shift_push_empty (Z.to_nat size) st1 Hbuf1)
      as (st2 & Hrun & Hbuf2 & Hpush & _ & Henv).
    destruct (for_count_shift_push (Z.to_nat size) st1) as (st3 & Hrun' & _ & Hgen & _).
    rewrite Hrun in Hrun'. injection Hrun' as <-. eauto 10. }
  rewrite read_cases, bool_decide_true by (rewrite Hbuf; cbn; lia).
  rewrite data_next_unfold. unfold generator_next, exhausted in *.
  rewrite (_query_pass_resolved _ _ _ _ _ Ha).
  destruct (gen_state (data_gen (self st))) as [|chunk|] eqn:Hstate; [|  |done].
  - cbn. match goal with |- context [for_count _ _ ?st1] =>
      destruct (Hdrain st1 Hbuf) as (st' & -> & Hb & Hp & Hg & He) end.
    exists st'. by rewrite Hb, Hp, Hg, He.
  - unfold row_count in Hlive. rewrite bool_decide_false by done.
    cbn. match goal with |- context [for_count _ _ ?st1] =>
      destruct (Hdrain st1 Hbuf) as (st' & -> & Hb & Hp & Hg & He) end.
    exists st'. by rewrite Hb, Hp, Hg, He.
Qed.

End MoreProperties.

(** ** The further properties on the test double *)

Lemma query_headers_are_sent_witness :
  request_headers Stub.basic_auth_query "key" !! "Authorization"
  = Some "Basic dXNlcjpwYXNz"
  ∧ dom (request_headers Stub.basic_auth_query "key") = {[ "Authorization" ]}.
Proof.
  destruct (query_headers_are_sent Stub.basic_auth_query "key"
              {[ "Authorization" := "Basic dXNlcjpwYXNz" ]} eq_refl)
    as (Hsent & _ & Hdom).
  split; [by apply Hsent|]. rewrite Hdom. set_solver.
Defined.

Lemma queryGrafana_failure_log_witness :
  console (queryGrafana (Stub.rejecting Stub.bad_gateway) Stub.URL Stub.first_query
             "key" (datasource Stub.metric) Stub.env0).2
  = [console_error_request
       "Data kit: fail while request data: Request failed with status code 502"
       "/api/datasources/proxy/1/query";
     console_error_response {| status := 502; data := 0; response_headers := ∅ |}].
Proof.
  destruct (queryGrafana_failure_log (Stub.rejecting Stub.bad_gateway) Stub.URL
              Stub.first_query "key" (datasource Stub.metric) Stub.env0
              Stub.bad_gateway O
              {| origin := Stub.gateway; pathname := "/api/datasources/proxy/1/query" |}
              eq_refl eq_refl) as (_ & _ & Hconsole).
  exact Hconsole.
Defined.

Lemma invalid_address_hides_the_failure_witness :
  queryGrafana (Stub.rejecting Stub.connection_refused) Stub.URL
    (with_url Stub.first_query "null/api/datasources/proxy/1/query") "key"
    (datasource Stub.metric) Stub.env0
  = (inl (TypeError_InvalidURL "null/api/datasources/proxy/1/query"),
     {| world := O;
        requests := [build_axiosQuery
                       (with_url Stub.first_query "null/api/datasources/proxy/1/query")
                       "key"];
        console := [] |}).
Proof.
  apply (invalid_address_hides_the_failure (Stub.rejecting Stub.connection_refused)
           Stub.URL (with_url Stub.first_query "null/api/datasources/proxy/1/query")
           "key" (datasource Stub.metric) Stub.env0 Stub.connection_refused O);
    reflexivity.
Defined.

Lemma invalid_url_before_any_request_witness :
  queryByMetric Stub.axios Stub.URL 3 Stub.metric "localhost:3000" 5 5 "key" Stub.env0
  = (inl (TypeError_InvalidURL "localhost:3000"),
     {| world := O; requests := [];
        console := [console_warn "Data-kit got from === to"] |}).
Proof.
  apply (invalid_url_before_any_request Stub.axios Stub.URL 3 Stub.metric
           "localhost:3000" "key" 5 5 Stub.env0); [lia|reflexivity].
Defined.

Lemma queryByMetric_paging_witness :
  ∃ data s',
    queryByMetric Stub.axios Stub.URL 4 Stub.metric Stub.dashboard 0 10 "key" Stub.env0
    = (inr (Some data), s')
    ∧ columns data = ["time"; "mean"]
    ∧ Stub.offsets_requested (requests s') = [Some 0; Some 50000; Some 100000]
    ∧ console s' = [].
Proof.
  destruct (queryByMetric_paging Stub.axios Stub.URL Stub.metric Stub.dashboard
              Stub.gateway 0 10 "key" Stub.env0 _ 3%nat
              ltac:(lia) stub_gateway stub_serves_three_pages 4%nat) as [Hdone _].
  eexists _, _. split; [apply Hdone; cbn; lia|]. cbn. repeat split.
Defined.

Lemma stub_endless_full g (from to : Z) apiKey (w : nat) offset :
  ∃ res w',
    Stub.endless (page_request Stub.metric g from to apiKey offset) w = (inr res, w')
    ∧ ¬ row_count (getResults (metricQuery Stub.metric) res) < CHUNK_SIZE.
Proof.
  exists (Stub.page (offset + CHUNK_SIZE) offset CHUNK_SIZE), (S w).
  split; [reflexivity|].
  change (¬ row_count (Stub.page (offset + CHUNK_SIZE) offset CHUNK_SIZE) < CHUNK_SIZE).
  rewrite stub_row_count. unfold CHUNK_SIZE. lia.
Qed.

Lemma queryByMetric_runs_on_full_pages_witness :
  ∃ s',
    queryByMetric Stub.endless Stub.URL 7 Stub.metric Stub.dashboard 0 10 "key" Stub.env0
    = (inr None, s')
    ∧ length (requests s') = 7%nat.
Proof.
  apply (queryByMetric_runs_on_full_pages Stub.endless Stub.URL Stub.metric
           Stub.dashboard Stub.gateway 0 10 "key" Stub.env0
           ltac:(lia) stub_gateway (stub_endless_full _ _ _ _) 7%nat).
Defined.

Lemma stub_one_full_page e :
  full_pages (Stub.failing_after_first e)
    (page_request Stub.metric Stub.gateway 0 10 "key") Stub.body_of
    O 0 [Stub.page Stub.total_rows 0 CHUNK_SIZE] 1%nat CHUNK_SIZE.
Proof.
  pose (req := page_request Stub.metric Stub.gateway 0 10 "key").
  assert (Hcount : row_count (Stub.body_of (Stub.page Stub.total_rows 0 CHUNK_SIZE))
                   = CHUNK_SIZE) by apply stub_row_count.
  apply (full_pages_cons (Stub.failing_after_first e) req Stub.body_of O 0
           (Stub.page Stub.total_rows 0 CHUNK_SIZE) 1%nat [] 1%nat CHUNK_SIZE);
    [apply (stub_serve_page Stub.total_rows)|rewrite Hcount; unfold CHUNK_SIZE; lia|].
  rewrite Hcount. apply full_pages_nil.
Qed.

Lemma failure_discards_the_pages_witness :
  ∃ s',
    queryByMetric (Stub.failing_after_first Stub.bad_gateway) Stub.URL 3 Stub.metric
      Stub.dashboard 0 10 "key" Stub.env0
    = (inl (DatasourceUnavailable
              {| message := "datasource /api/datasources/proxy/1/query unavailable, message: Request failed with status code 502";
                 datasourceType := Some "influxdb";
                 datasourceUrl := Some "http://localhost:3000/api/datasources/proxy/1/query" |}),
       s')
    ∧ Stub.offsets_requested (requests s') = [Some 0; Some 50000].
Proof.
  destruct (failure_discards_the_pages (Stub.failing_after_first Stub.bad_gateway)
              Stub.URL Stub.metric Stub.dashboard Stub.gateway 0 10 "key" Stub.env0
              _ 1%nat CHUNK_SIZE Stub.bad_gateway 2%nat 3%nat
              ltac:(lia) stub_gateway (stub_one_full_page _) eq_refl ltac:(cbn; lia))
    as (ex & s' & Hrun & Hthrown & Hsent).
  exists s'. rewrite Hrun, Hsent. split; [|reflexivity].
  f_equal. cbn in Hthrown. injection Hthrown as <- _. reflexivity.
Defined.

Lemma read_of_nothing_witness :
  read Stub.axios Stub.URL 0 Stub.stream0 = (inr tt, Stub.stream0)
  ∧ read Stub.axios Stub.URL (-3) Stub.stream0 = (inr tt, Stub.stream0).
Proof. split; apply (read_of_nothing Stub.axios Stub.URL); lia. Defined.

(** The second pull from a stream whose only page was short. *)
Lemma read_past_the_end_witness :
  let st := after_pulls (Stub.serve 37) Stub.URL [1] Stub.stream0 in
  (read (Stub.serve 37) Stub.URL 1 st).1 = inl (TypeError_UndefinedProperty "values")
  ∧ env (read (Stub.serve 37) Stub.URL 1 st).2 = env st.
Proof.
  intros st.
  destruct (read_past_the_end (Stub.serve 37) Stub.URL 1 st) as (Hthrown & _ & Henv & _).
  - vm_compute. reflexivity.
  - vm_compute. reflexivity.
  - split; [exact Hthrown|exact Henv].
Defined.

Lemma read_failure_completes_the_generator_witness :
  ∃ st',
    read (Stub.rejecting Stub.connection_refused) Stub.URL 1 Stub.stream0
    = (inl (GrafanaUnavailable {| message := "connect ECONNREFUSED 127.0.0.1:3000";
                                  datasourceType := None; datasourceUrl := None |}), st')
    ∧ pushed (self st') = []
    ∧ exhausted (data_gen (self st')).
Proof.
  destruct (read_failure_completes_the_generator
              (Stub.rejecting Stub.connection_refused) Stub.URL 1 Stub.stream0
              Stub.connection_refused O ltac:(cbn; tauto) ltac:(reflexivity) eq_refl)
    as (ex & st' & Hrun & Hthrown & Hdone & Hpushed & _).
  exists st'. vm_compute in Hthrown. injection Hthrown as <- _.
  split; [exact Hrun|]. split; [exact Hpushed|exact Hdone].
Defined.

Lemma fresh_stream_yields_undefined_witness :
  let st' := after_pulls Stub.axios Stub.URL [1; 2; 1] Stub.stream0 in
  currentChunk (this st') = []
  ∧ (∃ n, pushed (self st') = replicate n None)
  ∧ ∃ n, requests (env st')
         = replicate n (page_request Stub.metric Stub.gateway 0 10 "key" 0).
Proof.
  apply (fresh_stream_yields_undefined Stub.axios Stub.URL Stub.metric Stub.dashboard
           "key" 0 10 Stub.env0 (this Stub.stream0) Stub.env0 (self Stub.stream0)
           Stub.env0 [1; 2; 1] eq_refl eq_refl).
Defined.

(** One pull of three points from the stream on a back end that answers. *)
Lemma read_drops_the_page_witness :
  ∃ st',
    read Stub.axios Stub.URL 3 Stub.stream0 = (inr tt, st')
    ∧ pushed (self st') = [None; None; None]
    ∧ currentChunk (this st') = []
    ∧ Stub.offsets_requested (requests (env st')) = [Some 0].
Proof.
  destruct (read_drops_the_page Stub.axios Stub.URL 3 Stub.stream0
              (Stub.page Stub.total_rows 0 CHUNK_SIZE) 1%nat
              ltac:(cbn; tauto) eq_refl ltac:(lia) (stub_serve_page _ _ _ _ _ _ _))
    as (st' & Hrun & Hbuf & Hpushed & _ & Henv).
  exists st'. split; [exact Hrun|]. split; [exact Hpushed|]. split; [exact Hbuf|].
  by rewrite Henv.
Defined.

(** C4, on the test double.  A dashboard address given without its scheme,
    [localhost:3000/d/x], is read as scheme [localhost] and path [3000/d/x]:
    the endpoint derived is [null/3000], and the address of every request is
    one [new URL] rejects.  The connection is refused, and [queryByMetric]
    throws the [TypeError] of line 166, not [GrafanaUnavailable]; and
    whatever the failure of the transport is, [queryGrafana] throws that
    same [TypeError] for such a request. *)
Theorem failure_not_classified_without_scheme :
  Stub.URL_any_scheme "localhost:3000/d/x"
  = Some {| origin := "null"; pathname := "3000/d/x" |}
  ∧ queryByMetric (Stub.rejecting Stub.connection_refused) Stub.URL_any_scheme 1
      Stub.metric "localhost:3000/d/x" 0 10 "key" Stub.env0
    = (inl (TypeError_InvalidURL "null/3000/api/datasources/proxy/1/query"),
       {| world := O;
          requests := [page_request Stub.metric "null/3000" 0 10 "key" 0];
          console := [] |})
  ∧ ∀ e : AxiosError (Payload := Z),
      (queryGrafana (Stub.rejecting e) Stub.URL_any_scheme
         (with_url Stub.first_query "null/3000/api/datasources/proxy/1/query") "key"
         (datasource Stub.metric) Stub.env0).1
      = inl (TypeError_InvalidURL "null/3000/api/datasources/proxy/1/query").
Proof. repeat split. Qed.
